(** * Tournament join and withdrawal flows of the user panel

    A shallow embedding of [joinTournament] and [requestWithdrawal] from the
    user-panel script, together with the update callbacks they hand to the
    Realtime Database transactions.

    JavaScript numbers are IEEE-754 binary64 values.  They are modelled by the
    standard library's executable specification [spec_float] at precision 53
    and maximal exponent 1024, so every arithmetic step below rounds exactly
    as the script does. *)

From Stdlib Require Import ZArith Lia Bool List.
From Stdlib Require Import Floats.SpecFloat.
From stdpp Require Import base option gmap strings list fin_maps.

Local Open Scope Z_scope.

(* ===================================================================== *)
(** ** JavaScript numbers *)
(* ===================================================================== *)

Module JS.

Definition number : Type := spec_float.

Definition prec : Z := 53.
Definition emax : Z := 1024.

Definition NaN : number := S754_nan.

(** The number denoted by an integer literal (rounded to nearest even when
    the integer has more than 53 significant bits). *)
Definition ofZ (n : Z) : number := binary_normalize prec emax n 0 false.

Definition zero : number := ofZ 0.
Definition one : number := ofZ 1.
Definition hundred : number := ofZ 100.

Definition add (x y : number) : number := SFadd prec emax x y.
Definition sub (x y : number) : number := SFsub prec emax x y.
Definition mul (x y : number) : number := SFmul prec emax x y.
Definition div (x y : number) : number := SFdiv prec emax x y.

(** [x < y], [x <= y] and [x >= y]; each is false as soon as one side is
    NaN. *)
Definition ltb (x y : number) : bool := SFltb x y.
Definition leb (x y : number) : bool := SFleb x y.
Definition geb (x y : number) : bool := SFleb y x.

(** ToBoolean on a number: NaN, +0 and -0 are falsy. *)
Definition truthy (x : number) : bool :=
  match x with
  | S754_nan | S754_zero _ => false
  | _ => true
  end.

(** ToNumber on a property that may be missing: [undefined] becomes NaN. *)
Definition toNumber (v : option number) : number :=
  match v with
  | Some x => x
  | None => NaN
  end.

(** [v || d] for a value [v] that is a number, [null] or [undefined]. *)
Definition orElse (v : option number) (d : number) : number :=
  match v with
  | Some x => if truthy x then x else d
  | None => d
  end.

(** [Math.ceil]: the smallest integral number not below [x]; NaN, the
    zeros and the infinities are returned as they are, and a negative
    number above -1 gives -0. *)
Definition ceil (x : number) : number :=
  match x with
  | S754_finite s m (Zneg k) =>
      let q := Z.shiftr (Zpos m) (Zpos k) in
      let exact := Z.eqb (Z.shiftl q (Zpos k)) (Zpos m) in
      if s then
        match q with
        | Z0 => S754_zero true
        | _ => binary_normalize prec emax (- q) 0 true
        end
      else binary_normalize prec emax (if exact then q else q + 1) 0 false
  | _ => x
  end.

(** The mathematical ceiling of [a * b / 100] on integers. *)
Definition exactCeilPercent (a b : Z) : Z := - ((- (a * b)) / 100).

(** The mathematical ceiling of [x * p / 100] for a positive finite number
    [x], which is [m * 2 ^ e], and an integer percentage [p]. *)
Definition exactFee (x : number) (p : Z) : Z :=
  match x with
  | S754_finite false m (Zneg k) => - ((- (Zpos m * p)) / (100 * 2 ^ Zpos k))
  | S754_finite false m e => - ((- (Zpos m * 2 ^ e * p)) / 100)
  | _ => 0
  end.

(** Number of binary digits of a positive integer. *)
Definition digitsZ (n : Z) : Z := Z.log2 n + 1.

(** The normalised representation of the integer [n], [0 < n < 2 ^ 53]:
    a mantissa of exactly 53 bits. *)
Definition canon (s : bool) (n : Z) : number :=
  S754_finite s (Z.to_pos (n * 2 ^ (53 - digitsZ n))) (digitsZ n - 53).

(** The numbers a database node can hold: zeros and finite values in
    normal form; neither NaN nor an infinity. *)
Definition finite (x : number) : bool :=
  match x with
  | S754_zero _ => true
  | S754_finite _ m e => bounded prec emax m e
  | _ => false
  end.

(** [Number.isFinite]: neither NaN nor an infinity.  [set] checks every
    number of its argument so before anything is written or sent, and throws
    on one that fails. *)
Definition isFinite (x : number) : bool :=
  match x with
  | S754_nan | S754_infinity _ => false
  | _ => true
  end.

(** The values of the number type: NaN, the infinities, the zeros and the
    finite values in normal form. *)
Definition valid (x : number) : bool := valid_binary prec emax x.

(** [0 <= x]. *)
Definition nonneg (x : number) : bool := leb zero x.

(** The last step of rounding: the rounded mantissa [m1] is brought back to
    53 bits, should rounding up have carried into a 54th. *)
Definition roundTail (m1 e : Z) : number :=
  let '(mrs, e') := shr_fexp prec emax m1 e loc_Exact in
  match shr_m mrs with
  | Z0 => S754_zero false
  | Zpos m => if e' <=? emax - prec then S754_finite false m e' else S754_infinity false
  | Zneg _ => S754_nan
  end.

End JS.

Export JS (number).

(* ===================================================================== *)
(** ** Records of the Realtime Database *)
(* ===================================================================== *)

(** [users/{uid}], as [saveUserProfile] writes it; [walletBalance] is
    [wallet.balance], absent when the wallet or the field is missing. *)
Record User := {
  name : string;
  phone : string;
  isBlocked : bool;
  ign : option string;
  walletBalance : option number
}.

(** [tournaments/{tId}]; a field that the node does not carry is [None]
    ([undefined] when the script reads the property). *)
Record Tournament := {
  title : option string;
  gameName : option string;
  categoryId : option string;
  status : option string;
  entryFee : option number;
  maxSlots : option number;
  joinedCount : option number
}.

(** [tournamentJoins/{tId}/{uid}]. *)
Record JoinRecord := {
  j_uid : string;
  j_userName : string;
  j_gameUidOrIgn : string;
  j_phone : string;
  j_joinedAt : number;
  j_status : string
}.

(** [walletHistory/{uid}/{autoId}], as [loadWalletHistory] reads it. *)
Record HistoryEntry := {
  h_type : string;
  h_amount : number;
  h_createdAt : number;
  h_note : option string
}.

(** [withdrawals/{autoId}]. *)
Record Withdrawal := {
  w_uid : string;
  w_name : string;
  w_method : string;
  w_accountInfo : string;
  w_amount : number;
  w_fee : number;
  w_status : string;
  w_adminNote : string;
  w_transactionId : string;
  w_createdAt : number;
  w_updatedAt : number
}.

(** [appSettings], the two fields the withdrawal flow reads. *)
Record Settings := {
  minWithdraw : option number;
  withdrawFeePercent : option number
}.

(** The database tree.  Push ids sort by creation time, so the children of
    [withdrawals] and of [walletHistory/{uid}] are lists in push order. *)
Record Store := {
  users : gmap string User;
  tournaments : gmap string Tournament;
  tournamentJoins : gmap (string * string) JoinRecord;
  walletHistory : gmap string (list HistoryEntry);
  withdrawals : list Withdrawal;
  appSettings : option Settings
}.

Definition setWalletBalance (b : option number) (u : User) : User :=
  {| name := name u; phone := phone u; isBlocked := isBlocked u;
     ign := ign u; walletBalance := b |}.

Definition setJoinedCount (c : option number) (t : Tournament) : Tournament :=
  {| title := title t; gameName := gameName t; categoryId := categoryId t;
     status := status t; entryFee := entryFee t; maxSlots := maxSlots t;
     joinedCount := c |}.

(** A node that holds nothing but [joinedCount]. *)
Definition bareTournament (c : option number) : Tournament :=
  {| title := None; gameName := None; categoryId := None; status := None;
     entryFee := None; maxSlots := None; joinedCount := c |}.

Definition withUsers (f : gmap string User -> gmap string User) (s : Store) : Store :=
  {| users := f (users s); tournaments := tournaments s;
     tournamentJoins := tournamentJoins s; walletHistory := walletHistory s;
     withdrawals := withdrawals s; appSettings := appSettings s |}.

Definition withTournaments (f : gmap string Tournament -> gmap string Tournament)
    (s : Store) : Store :=
  {| users := users s; tournaments := f (tournaments s);
     tournamentJoins := tournamentJoins s; walletHistory := walletHistory s;
     withdrawals := withdrawals s; appSettings := appSettings s |}.

Definition withJoins
    (f : gmap (string * string) JoinRecord -> gmap (string * string) JoinRecord)
    (s : Store) : Store :=
  {| users := users s; tournaments := tournaments s;
     tournamentJoins := f (tournamentJoins s); walletHistory := walletHistory s;
     withdrawals := withdrawals s; appSettings := appSettings s |}.

Definition withWithdrawals (f : list Withdrawal -> list Withdrawal) (s : Store) : Store :=
  {| users := users s; tournaments := tournaments s;
     tournamentJoins := tournamentJoins s; walletHistory := walletHistory s;
     withdrawals := f (withdrawals s); appSettings := appSettings s |}.

(* ===================================================================== *)
(** ** The database client: reads, writes and transactions *)
(* ===================================================================== *)

(** What an update callback hands back to [transaction]: [undefined]
    aborts, any other value (a node or [null]) is written. *)
Inductive TxReturn (A : Type) :=
| TxAbort
| TxWrite (v : option A).

Arguments TxAbort {A}.
Arguments TxWrite {A} v.

(** What [transaction] passes to its completion callback as
    [(error, committed)]. *)
Inductive TxStatus :=
| TxError
| TxNotCommitted
| TxCommitted.

(** What the script does to the outside: database calls and toasts, in
    program order, and the exception of a [set] that refuses its argument,
    which nothing catches and which ends the handler it is thrown in. *)
Inductive Event :=
| EvReadUser (uid : string)
| EvReadSettings
| EvTxTournament (tId : string) (r : TxStatus)
| EvTxBalance (uid : string) (r : TxStatus)
| EvTxJoinedCount (tId : string) (r : TxStatus)
| EvSetJoin (tId uid : string)
| EvPushWithdrawal
| EvThrow
| EvToast (msg : string).

Record World := {
  store : Store;
  trace : list Event
}.

(** A computation of the script: it reads and updates the database and
    extends the trace.  A run is taken in isolation: between its steps no other
    client writes to the locations it uses. *)
Definition M (A : Type) : Type := World -> A * World.

#[global] Instance M_ret : MRet M := fun A a w => (a, w).

#[global] Instance M_bind : MBind M :=
  fun A B f m w => let '(a, w') := m w in f a w'.

Definition emit (e : Event) : M unit :=
  fun w => (tt, {| store := store w; trace := trace w ++ [e] |}).

Definition getStore : M Store := fun w => (store w, w).

Definition putStore (s : Store) : M unit :=
  fun w => (tt, {| store := s; trace := trace w |}).

Definition exec {A} (m : M A) (s : Store) : World :=
  snd (m {| store := s; trace := [] |}).

Definition result {A} (m : M A) (s : Store) : A :=
  fst (m {| store := s; trace := [] |}).

Definition toasts (w : World) : list string :=
  omap (fun e => match e with EvToast msg => Some msg | _ => None end) (trace w).

Definition showToast (msg : string) : M unit := emit (EvToast msg).

(** [ref.transaction(update, onComplete)] on one location, which [get] reads
    and [put] replaces.  The committed value is [update] applied to the value
    the location holds when the transaction lands; [undefined] from [update]
    aborts and leaves the location as it is; a failure of the client or the
    server ([fault]) reports an error and writes nothing.  The script looks at
    the outcome of the slot and wallet transactions only; the compensating
    transaction and [set] have no completion callback and are taken to
    succeed, once [set] has accepted its argument. *)
Definition transaction {A} (get : Store -> option A)
    (put : option A -> Store -> Store) (fault : bool)
    (update : option A -> TxReturn A) : M TxStatus :=
  s ← getStore;
  if fault then mret TxError
  else
    match update (get s) with
    | TxAbort => mret TxNotCommitted
    | TxWrite v => putStore (put v s);; mret TxCommitted
    end.

(** [db.ref('tournaments/' + tId)]. *)
Definition getTournament (tId : string) (s : Store) : option Tournament :=
  tournaments s !! tId.

Definition putTournament (tId : string) (v : option Tournament) (s : Store) : Store :=
  match v with
  | Some t => withTournaments (insert tId t) s
  | None => withTournaments (delete tId) s
  end.

(** [tournamentRef.child('joinedCount')]; writing a number below a missing
    tournament creates a node that carries [joinedCount] alone. *)
Definition getJoinedCount (tId : string) (s : Store) : option number :=
  t ← tournaments s !! tId; joinedCount t.

Definition putJoinedCount (tId : string) (v : option number) (s : Store) : Store :=
  match tournaments s !! tId with
  | Some t => withTournaments (insert tId (setJoinedCount v t)) s
  | None =>
      match v with
      | Some _ => withTournaments (insert tId (bareTournament v)) s
      | None => s
      end
  end.

(** [db.ref('users/' + uid + '/wallet/balance')].  Both flows write this
    location only for a user whose profile exists. *)
Definition getBalance (uid : string) (s : Store) : option number :=
  u ← users s !! uid; walletBalance u.

Definition putBalance (uid : string) (v : option number) (s : Store) : Store :=
  match users s !! uid with
  | Some u => withUsers (insert uid (setWalletBalance v u)) s
  | None => s
  end.

Definition txTournament (tId : string) (fault : bool)
    (update : option Tournament -> TxReturn Tournament) : M TxStatus :=
  r ← transaction (getTournament tId) (putTournament tId) fault update;
  emit (EvTxTournament tId r);; mret r.

Definition txBalance (uid : string) (fault : bool)
    (update : option number -> TxReturn number) : M TxStatus :=
  r ← transaction (getBalance uid) (putBalance uid) fault update;
  emit (EvTxBalance uid r);; mret r.

Definition txJoinedCount (tId : string)
    (update : option number -> TxReturn number) : M TxStatus :=
  r ← transaction (getJoinedCount tId) (putJoinedCount tId) false update;
  emit (EvTxJoinedCount tId r);; mret r.

(** [db.ref('users/' + uid).once('value')]. *)
Definition onceUser (uid : string) : M (option User) :=
  s ← getStore; emit (EvReadUser uid);; mret (users s !! uid).

(** [db.ref('appSettings').once('value')]. *)
Definition onceSettings : M (option Settings) :=
  s ← getStore; emit EvReadSettings;; mret (appSettings s).

(** [db.ref('tournamentJoins/' + tId + '/' + uid).set(record)]. *)
Definition setJoin (tId uid : string) (j : JoinRecord) : M unit :=
  s ← getStore;
  putStore (withJoins (insert (tId, uid) j) s);;
  emit (EvSetJoin tId uid).

(** [db.ref('withdrawals').push()] followed by [set(record)].  [push()]
    without argument only makes a key.  [set] throws, before it writes, when
    a number of the record is NaN or an infinity; [amount] and [fee] are the
    two numbers of the record that the script computes (the time stamps are
    what [Date.now()] returns, an integer).  The result tells whether the
    record was written. *)
Definition pushWithdrawal (r : Withdrawal) : M bool :=
  if JS.isFinite (w_amount r) && JS.isFinite (w_fee r)
  then
    s ← getStore;
    putStore (withWithdrawals (fun l => l ++ [r]) s);;
    emit EvPushWithdrawal;;
    mret true
  else emit EvThrow;; mret false.

(* ===================================================================== *)
(** ** joinTournament *)
(* ===================================================================== *)

(** The update callback of the first transaction. *)
Definition reserveSlotUpdate (curr : option Tournament) : TxReturn Tournament :=
  match curr with
  | Some c =>
      if JS.geb (JS.toNumber (joinedCount c)) (JS.toNumber (maxSlots c))
      then TxAbort
      else TxWrite (Some (setJoinedCount
                            (Some (JS.add (JS.orElse (joinedCount c) JS.zero) JS.one)) c))
  | None => TxWrite None
  end.

(** The update callback of both wallet transactions; [amount] is
    [t.entryFee] in [joinTournament] and the parsed amount in
    [requestWithdrawal]. *)
Definition debitUpdate (amount : option number) (bal : option number) : TxReturn number :=
  if JS.geb (JS.orElse bal JS.zero) (JS.toNumber amount)
  then TxWrite (Some (JS.sub (JS.orElse bal JS.zero) (JS.toNumber amount)))
  else TxAbort.

(** The update callback of the compensating transaction. *)
Definition releaseSlotUpdate (c : option number) : TxReturn number :=
  TxWrite (Some (JS.sub (JS.orElse c JS.one) JS.one)).

Definition joinRecord (uid : string) (userData : User) (now : number) : JoinRecord :=
  {| j_uid := uid;
     j_userName := name userData;
     j_gameUidOrIgn := default "" (ign userData);
     j_phone := phone userData;
     j_joinedAt := now;
     j_status := "joined" |}.

(** [joinTournament(tId, t)] for the signed-in user [uid].  [t] is the
    tournament object of the rendered card, [now] is what [Date.now()]
    returns, and [fault1], [fault2] tell whether the first and the second
    transaction report an error. *)
Definition joinTournament (fault1 fault2 : bool) (now : number)
    (uid tId : string) (t : Tournament) : M unit :=
  snapshot ← onceUser uid;
  match snapshot with
  | None => showToast "Profile not set up."
  | Some userData =>
      if isBlocked userData then showToast "You are blocked."
      else
        let balance := JS.orElse (walletBalance userData) JS.zero in
        if JS.ltb balance (JS.toNumber (entryFee t))
        then showToast "Insufficient wallet balance."
        else
          r1 ← txTournament tId fault1 reserveSlotUpdate;
          match r1 with
          | TxError => showToast "Error joining tournament."
          | TxNotCommitted => showToast "Slots are full."
          | TxCommitted =>
              r2 ← txBalance uid fault2 (debitUpdate (entryFee t));
              match r2 with
              | TxCommitted =>
                  setJoin tId uid (joinRecord uid userData now);;
                  showToast "Joined successfully!"
              | _ =>
                  txJoinedCount tId releaseSlotUpdate;;
                  showToast "Unable to deduct fee."
              end
          end
  end.

(* ===================================================================== *)
(** ** requestWithdrawal *)
(* ===================================================================== *)

Definition withdrawalRecord (uid method account : string)
    (amount fee now : number) : Withdrawal :=
  {| w_uid := uid; w_name := ""; w_method := method; w_accountInfo := account;
     w_amount := amount; w_fee := fee; w_status := "pending";
     w_adminNote := ""; w_transactionId := "";
     w_createdAt := now; w_updatedAt := now |}.

(** [Math.ceil(amount * feePercent / 100)]. *)
Definition withdrawalFee (amount feePercent : number) : number :=
  JS.ceil (JS.div (JS.mul amount feePercent) JS.hundred).

(** [requestWithdrawal()] for the signed-in user [uid].  [amount] is what
    [parseFloat] returns for the amount field, [methodField] and
    [accountField] are the two other form values, [now] is [Date.now()],
    and [fault] tells whether the wallet transaction reports an error.  The
    toast of the minimum check is logged without the currency sign and the
    amount that follow it on screen.  When [set] throws, the completion
    callback of the wallet transaction ends there: the form is not cleared
    and no toast is shown, while the debit stays committed. *)
Definition requestWithdrawal (fault : bool) (now : number) (uid : string)
    (amount : number) (methodField accountField : string) : M unit :=
  let method := if decide (methodField = "") then "upi" else methodField in
  let account := accountField in
  if negb (JS.truthy amount) || JS.leb amount JS.zero
  then showToast "Enter valid amount."
  else
    snap ← onceSettings;
    let min := JS.orElse (s ← snap; minWithdraw s) JS.zero in
    let feePercent := JS.orElse (s ← snap; withdrawFeePercent s) JS.zero in
    if JS.ltb amount min
    then showToast "Minimum withdraw is"
    else
      let fee := withdrawalFee amount feePercent in
      r ← txBalance uid fault (debitUpdate (Some amount));
      match r with
      | TxCommitted =>
          written ← pushWithdrawal (withdrawalRecord uid method account amount fee now);
          if written : bool then showToast "Withdraw requested." else mret tt
      | _ => showToast "Insufficient balance."
      end.

(** The counter after the compensating callback has been applied twice. *)
Definition releaseTwice (c : option number) : option number :=
  match releaseSlotUpdate c with
  | TxWrite v =>
      match releaseSlotUpdate v with
      | TxWrite v' => v'
      | TxAbort => v
      end
  | TxAbort => c
  end.

(* ===================================================================== *)
(** ** Sample data *)
(* ===================================================================== *)

Definition sampleUser (bal : Z) : User :=
  {| name := "Asha"; phone := "5550100"; isBlocked := false;
     ign := Some "asha42"; walletBalance := Some (JS.ofZ bal) |}.

Definition sampleTournament (fee slots joined : Z) : Tournament :=
  {| title := Some "Friday Cup"; gameName := Some "Arena";
     categoryId := Some "c1"; status := Some "open";
     entryFee := Some (JS.ofZ fee); maxSlots := Some (JS.ofZ slots);
     joinedCount := Some (JS.ofZ joined) |}.

Definition sampleSettings : Settings :=
  {| minWithdraw := Some (JS.ofZ 500); withdrawFeePercent := Some (JS.ofZ 2) |}.

(** One user [u1] with the given balance and one tournament [t1]. *)
Definition sampleStore (bal fee slots joined : Z) : Store :=
  {| users := {[ "u1" := sampleUser bal ]};
     tournaments := {[ "t1" := sampleTournament fee slots joined ]};
     tournamentJoins := ∅;
     walletHistory := ∅;
     withdrawals := [];
     appSettings := Some sampleSettings |}.

(** The same user, no tournament at all. *)
Definition storeWithoutTournament (bal : Z) : Store :=
  {| users := {[ "u1" := sampleUser bal ]};
     tournaments := ∅;
     tournamentJoins := ∅;
     walletHistory := ∅;
     withdrawals := [];
     appSettings := Some sampleSettings |}.

(** The store after [u1] has joined [t1] once: one member counted, the fee
    paid, the membership record in place. *)
Definition storeAfterFirstJoin : Store :=
  withJoins (insert ("t1", "u1")
               (joinRecord "u1" (sampleUser 250) (JS.ofZ 1699999999999)))
    (sampleStore 150 100 5 1).

(** Settings with a fee percentage of 10^308, which no check of the
    settings form excludes. *)
Definition overflowingSettings : Settings :=
  {| minWithdraw := Some (JS.ofZ 500); withdrawFeePercent := Some (JS.ofZ (10 ^ 308)) |}.

(** What [Date.now()] returns in the sample runs. *)
Definition sampleNow : number := JS.ofZ 1700000000000.

(** 1000.5, a positive amount that is not an integer. *)
Definition fractionalAmount : number := JS.div (JS.ofZ 2001) (JS.ofZ 2).

(** The number nearest to one third of a hundred (33.333333333333336). *)
Definition thirdOfHundred : number := JS.div (JS.ofZ 100) (JS.ofZ 3).

(** 288230376151711808, an integer that a number represents exactly. *)
Definition hugeAmount : number := JS.ofZ (2 ^ 58 + 64).

(* ===================================================================== *)
(** ** Runs, decision by decision *)
(* ===================================================================== *)

Section Runs.

Context (fault1 fault2 : bool) (now : number) (uid tId : string) (t : Tournament).

(** The store after the compensating transaction has run on [s]. *)
Definition released (s : Store) : Store :=
  match releaseSlotUpdate (getJoinedCount tId s) with
  | TxAbort => s
  | TxWrite v => putJoinedCount tId v s
  end.

(** The second half of a run of [joinTournament]: what follows a committed
    reservation that left the store [s1]. *)
Definition afterReservation (u : User) (s1 : Store) : World :=
  let pre := [EvReadUser uid; EvTxTournament tId TxCommitted] in
  if fault2 then
    {| store := released s1;
       trace := pre ++ [EvTxBalance uid TxError;
                        EvTxJoinedCount tId TxCommitted;
                        EvToast "Unable to deduct fee."] |}
  else
    match debitUpdate (entryFee t) (getBalance uid s1) with
    | TxAbort =>
        {| store := released s1;
           trace := pre ++ [EvTxBalance uid TxNotCommitted;
                            EvTxJoinedCount tId TxCommitted;
                            EvToast "Unable to deduct fee."] |}
    | TxWrite b =>
        {| store := withJoins (insert (tId, uid) (joinRecord uid u now))
                      (putBalance uid b s1);
           trace := pre ++ [EvTxBalance uid TxCommitted;
                            EvSetJoin tId uid;
                            EvToast "Joined successfully!"] |}
    end.

(** Every run of [joinTournament]. *)
Definition joinRun (s : Store) : World :=
  match users s !! uid with
  | None => {| store := s; trace := [EvReadUser uid; EvToast "Profile not set up."] |}
  | Some u =>
      if isBlocked u
      then {| store := s; trace := [EvReadUser uid; EvToast "You are blocked."] |}
      else if JS.ltb (JS.orElse (walletBalance u) JS.zero) (JS.toNumber (entryFee t))
      then {| store := s;
              trace := [EvReadUser uid; EvToast "Insufficient wallet balance."] |}
      else if fault1
      then {| store := s;
              trace := [EvReadUser uid; EvTxTournament tId TxError;
                        EvToast "Error joining tournament."] |}
      else
        match reserveSlotUpdate (getTournament tId s) with
        | TxAbort =>
            {| store := s;
               trace := [EvReadUser uid; EvTxTournament tId TxNotCommitted;
                         EvToast "Slots are full."] |}
        | TxWrite v => afterReservation u (putTournament tId v s)
        end
  end.

End Runs.

(** Every run of [requestWithdrawal]. *)
Definition withdrawRun (fault : bool) (now : number) (uid : string)
    (amount : number) (methodField accountField : string) (s : Store) : World :=
  if negb (JS.truthy amount) || JS.leb amount JS.zero
  then {| store := s; trace := [EvToast "Enter valid amount."] |}
  else
    let min := JS.orElse (st ← appSettings s; minWithdraw st) JS.zero in
    let feePercent := JS.orElse (st ← appSettings s; withdrawFeePercent st) JS.zero in
    if JS.ltb amount min
    then {| store := s; trace := [EvReadSettings; EvToast "Minimum withdraw is"] |}
    else if fault
    then {| store := s;
            trace := [EvReadSettings; EvTxBalance uid TxError;
                      EvToast "Insufficient balance."] |}
    else
      match debitUpdate (Some amount) (getBalance uid s) with
      | TxAbort =>
          {| store := s;
             trace := [EvReadSettings; EvTxBalance uid TxNotCommitted;
                       EvToast "Insufficient balance."] |}
      | TxWrite b =>
          if JS.isFinite amount && JS.isFinite (withdrawalFee amount feePercent)
          then
            {| store :=
                 withWithdrawals
                   (fun l => l ++ [withdrawalRecord uid
                                     (if decide (methodField = "") then "upi"
                                      else methodField)
                                     accountField amount
                                     (withdrawalFee amount feePercent) now])
                   (putBalance uid b s);
               trace := [EvReadSettings; EvTxBalance uid TxCommitted;
                         EvPushWithdrawal; EvToast "Withdraw requested."] |}
          else
            {| store := putBalance uid b s;
               trace := [EvReadSettings; EvTxBalance uid TxCommitted; EvThrow] |}
      end.

(* ===================================================================== *)
(** ** The rest of the user panel and the admin panel *)
(* ===================================================================== *)

Definition withSettings (v : option Settings) (s : Store) : Store :=
  {| users := users s; tournaments := tournaments s;
     tournamentJoins := tournamentJoins s; walletHistory := walletHistory s;
     withdrawals := withdrawals s; appSettings := v |}.

Definition setBlocked (b : bool) (u : User) : User :=
  {| name := name u; phone := phone u; isBlocked := b;
     ign := ign u; walletBalance := walletBalance u |}.

(** The node [saveUserProfile] writes, as far as [User] records it (the
    script also stores [createdAt], two wallet totals and the stats, all
    zero but the time stamp). *)
Definition freshProfile (name phone ign : string) : User :=
  {| name := name; phone := phone; isBlocked := false;
     ign := Some ign; walletBalance := Some JS.zero |}.

(** [saveUserProfile()] for the signed-in user [uid].  [name], [phone] and
    [ign] are the three fields after [trim()]; [fault] tells whether [set]
    is rejected.  Of the calls only the toast is logged. *)
Definition saveUserProfile (fault : bool) (uid name phone ign : string) : M unit :=
  if bool_decide (name = "") || bool_decide (phone = "")
  then showToast "Please fill all fields."
  else if fault then showToast "Error saving profile."
  else
    s ← getStore;
    putStore (withUsers (insert uid (freshProfile name phone ign)) s);;
    showToast "Profile saved!".

(** The click handler of the block button on the card of user [key] in the
    admin panel; [u] is the value of the user in the snapshot the card was
    rendered from, and [set] writes the one field [isBlocked] under the node.
    When the user has been removed since the snapshot, the script creates a
    node that holds the flag alone; [User] has no value for such a node, so
    the store is left as it is there, and the theorems on [toggleBlock] take
    the user to be stored. *)
Definition toggleBlock (key : string) (u : User) : M unit :=
  let newStatus := negb (isBlocked u) in
  s ← getStore;
  match users s !! key with
  | Some cur => putStore (withUsers (insert key (setBlocked newStatus cur)) s)
  | None => mret tt
  end;;
  showToast (if newStatus then "User blocked." else "User unblocked.").

(** [parseInt(field.value) || 0]: what the settings form puts in its payload
    for a field that [parseInt] takes to [parsed]. *)
Definition settingsField (parsed : number) : number :=
  JS.orElse (Some parsed) JS.zero.

(** The submit handler of the settings form.  [minParsed], [pctParsed] and
    [cooldownParsed] are what [parseInt] returns for the three numeric
    fields: an integer, NaN for a field that does not start with a digit, or
    an infinity for a digit string beyond the range of a number.  The payload
    has three numbers; [set] throws on an infinity among them, and then
    nothing is written and no toast is shown.  [fault] tells whether [set] is
    rejected, which the script does not handle.  Of the payload [Settings]
    keeps the two fields the withdrawal flow reads. *)
Definition saveAppSettings (fault : bool)
    (minParsed pctParsed cooldownParsed : number) : M unit :=
  let payloadMin := settingsField minParsed in
  let payloadPct := settingsField pctParsed in
  let payloadCooldown := settingsField cooldownParsed in
  if JS.isFinite payloadMin && JS.isFinite payloadPct && JS.isFinite payloadCooldown
  then
    if fault then mret tt
    else
      s ← getStore;
      putStore (withSettings
                  (Some {| minWithdraw := Some payloadMin;
                           withdrawFeePercent := Some payloadPct |})
                  s);;
      showToast "Settings updated."
  else emit EvThrow.

(** What [loadWalletHistory] shows for the pushed entries [l]: the last
    twenty, newest first. *)
Definition historyView (l : list HistoryEntry) : list HistoryEntry :=
  reverse (drop (length l - 20) l).

(** The slider: the index the interval callback keeps in [active], and for
    every slide whether its [display] is [block] ([true]) or [none]. *)
Record Slider := {
  active : nat;
  shown : list bool
}.

(** [startAutoPlay()] on [n] slides: nothing is scheduled without slides;
    otherwise the first slide alone is displayed. *)
Definition startAutoPlay (n : nat) : option Slider :=
  match n with
  | O => None
  | S _ => Some {| active := 0;
                   shown := (fun i => bool_decide (i = 0%nat)) <$> seq 0 n |}
  end.

(** One run of the interval callback. *)
Definition tick (sl : Slider) : Slider :=
  let hidden := <[active sl := false]> (shown sl) in
  let next := ((active sl + 1) mod length (shown sl))%nat in
  {| active := next; shown := <[next := true]> hidden |}.

(** [currentFilters]. *)
Record Filters := {
  category : option string;
  search : string
}.

(** [s.includes(sub)]. *)
Fixpoint includes (s sub : string) : bool :=
  String.prefix sub s
  || match s with
     | EmptyString => false
     | String _ rest => includes rest sub
     end.

(** [refreshTournamentList()]: the cards rendered for [cache], and whether
    the loop was left by a TypeError, which a non-empty search raises at a
    tournament without title.  [lower] is [toLowerCase]. *)
Fixpoint refreshTournamentList (lower : string -> string) (f : Filters)
    (cache : list (string * Tournament)) : list (string * Tournament) * bool :=
  match cache with
  | [] => ([], false)
  | (id, data) :: rest =>
      let skip := refreshTournamentList lower f rest in
      let render := ((id, data) :: fst skip, snd skip) in
      let wrongCategory :=
        match category f with
        | Some c => negb (bool_decide (c = "")) && negb (bool_decide (categoryId data = Some c))
        | None => false
        end in
      if wrongCategory then skip
      else if bool_decide (search f = "") then render
      else
        match title data with
        | None => ([], true)
        | Some ti => if includes (lower ti) (lower (search f)) then render else skip
        end
  end.

(** [filterByCategory(catId)] on the filter state. *)
Definition filterByCategory (catId : option string) (f : Filters) : Filters :=
  {| category := catId; search := search f |}.

(* ===================================================================== *)
(** ** Facts about binary64 arithmetic *)
(* ===================================================================== *)

Module JSFacts.
Import JS.

(** *** Integers below [2 ^ 53] are represented and combined exactly *)

Lemma digits2_pos_log2 (p : positive) :
  Zpos (digits2_pos p) = Z.log2 (Zpos p) + 1.
Proof.
  induction p as [p IH | p IH |]; simpl digits2_pos.
  - rewrite Pos2Z.inj_succ, IH. destruct p; simpl; lia.
  - rewrite Pos2Z.inj_succ, IH. destruct p; simpl; lia.
  - reflexivity.
Qed.

Lemma iter_xO_mul (d m : positive) :
  Zpos (Pos.iter xO m d) = Zpos m * 2 ^ Zpos d.
Proof.
  revert m. induction d as [| d IH] using Pos.peano_ind; intros m.
  - simpl. lia.
  - rewrite Pos.iter_succ, Pos2Z.inj_xO, IH, Pos2Z.inj_succ, Z.pow_succ_r by lia. lia.
Qed.

Lemma iter_pos_nat {A} (f : A -> A) (p : positive) (x : A) :
  SpecFloat.iter_pos f p x = Nat.iter (Pos.to_nat p) f x.
Proof.
  revert x. induction p as [p IH | p IH |]; intros x; simpl SpecFloat.iter_pos.
  - rewrite !IH, Pos2Nat.inj_xI. 
    replace (S (2 * Pos.to_nat p))%nat with (Pos.to_nat p + (Pos.to_nat p + 1))%nat by lia.
    rewrite !Nat.iter_add. simpl. reflexivity.
  - rewrite !IH, Pos2Nat.inj_xO.
    replace (2 * Pos.to_nat p)%nat with (Pos.to_nat p + Pos.to_nat p)%nat by lia.
    rewrite Nat.iter_add. reflexivity.
  - reflexivity.
Qed.

Lemma shr_1_even (q : positive) :
  shr_1 {| shr_m := Zpos q~0; shr_r := false; shr_s := false |}
  = {| shr_m := Zpos q; shr_r := false; shr_s := false |}.
Proof. reflexivity. Qed.

Lemma iter_shr_1_exact (k : nat) (q : Z) :
  0 < q ->
  Nat.iter k shr_1 {| shr_m := q * 2 ^ Z.of_nat k; shr_r := false; shr_s := false |}
  = {| shr_m := q; shr_r := false; shr_s := false |}.
Proof.
  intros Hq. induction k as [| k IH].
  - simpl. f_equal. lia.
  - rewrite Nat.iter_succ_r.
    replace (q * 2 ^ Z.of_nat (S k)) with (2 * (q * 2 ^ Z.of_nat k))
      by (rewrite Nat2Z.inj_succ, Z.pow_succ_r by lia; lia).
    assert (Hpos : 0 < q * 2 ^ Z.of_nat k) by (apply Z.mul_pos_pos; [lia | apply Z.pow_pos_nonneg; lia]).
    destruct (q * 2 ^ Z.of_nat k) as [| r | r] eqn:E; try lia.
    change (2 * Zpos r) with (Zpos r~0). rewrite shr_1_even. exact IH.
Qed.

Lemma digitsZ_bounds (n : Z) : 0 < n < 2 ^ 53 -> 1 <= digitsZ n <= 53.
Proof.
  intros [H0 H1]. unfold digitsZ.
  pose proof (Z.log2_nonneg n).
  assert (Z.log2 n < 53) by (apply Z.log2_lt_pow2; lia). lia.
Qed.

Lemma fexp_small (x : Z) : -1021 <= x -> fexp prec emax x = x - 53.
Proof. intros H. unfold fexp, emin, prec, emax. lia. Qed.

Lemma shr_fexp_53 (m : positive) (e : Z) :
  Zpos (digits2_pos m) = 53 -> -1074 <= e ->
  shr_fexp prec emax (Zpos m) e loc_Exact
  = ({| shr_m := Zpos m; shr_r := false; shr_s := false |}, e).
Proof.
  intros Hd He. unfold shr_fexp, Zdigits2. rewrite Hd, fexp_small by lia.
  replace (53 + e - 53 - e) with 0 by lia. reflexivity.
Qed.

Lemma binary_round_aux_53 (s : bool) (m : positive) (e : Z) :
  Zpos (digits2_pos m) = 53 -> -1074 <= e <= 971 ->
  binary_round_aux prec emax s (Zpos m) e loc_Exact = S754_finite s m e.
Proof.
  intros Hd He. unfold binary_round_aux.
  rewrite shr_fexp_53 by lia. cbn [shr_m loc_of_shr_record round_nearest_even].
  rewrite shr_fexp_53 by lia. cbn [shr_m].
  unfold emax, prec. destruct (Z.leb_spec e (1024 - 53)); [reflexivity | lia].
Qed.

Lemma binary_round_exact (s : bool) (m : positive) (k n : Z) :
  Zpos m = n * 2 ^ k -> 0 <= k -> 0 < n < 2 ^ 53 ->
  binary_round prec emax s m (- k) = canon s n.
Proof.
  intros Hm Hk Hn.
  pose proof (digitsZ_bounds n Hn) as Hd.
  assert (Hdm : Zpos (digits2_pos m) = digitsZ n + k).
  { rewrite digits2_pos_log2, Hm, Z.log2_mul_pow2 by lia. unfold digitsZ. lia. }
  assert (Hpow : 0 < 2 ^ (53 - digitsZ n)) by (apply Z.pow_pos_nonneg; lia).
  assert (Hcanon : Z.log2 (n * 2 ^ (53 - digitsZ n)) + 1 = 53).
  { rewrite Z.log2_mul_pow2 by lia. unfold digitsZ. lia. }
  unfold binary_round, canon.
  rewrite Hdm, fexp_small by lia.
  unfold shl_align.
  destruct (digitsZ n + k + - k - 53 - - k) as [| p | p] eqn:E.
  - (* already 53 digits *)
    assert (k = 53 - digitsZ n) by lia. subst k.
    rewrite binary_round_aux_53 by (rewrite ?digits2_pos_log2, ?Hm; lia).
    f_equal; [| lia]. rewrite <- Hm. reflexivity.
  - (* more than 53 digits: the low bits are zero and are shifted out *)
    unfold binary_round_aux. unfold shr_fexp at 1. unfold Zdigits2 at 1.
    rewrite Hdm, fexp_small by lia.
    replace (digitsZ n + k + - k - 53 - - k) with (Zpos p) by lia.
    cbn [shr shr_record_of_loc]. rewrite iter_pos_nat.
    replace (Zpos m) with ((n * 2 ^ (53 - digitsZ n)) * 2 ^ Z.of_nat (Pos.to_nat p)).
    2:{ rewrite Hm, positive_nat_Z, <- Z.mul_assoc, <- Z.pow_add_r by lia.
        do 2 f_equal. lia. }
    rewrite iter_shr_1_exact by lia.
    cbn [shr_m loc_of_shr_record round_nearest_even].
    destruct (n * 2 ^ (53 - digitsZ n)) as [| q | q] eqn:Eq; try lia.
    rewrite shr_fexp_53 by (rewrite ?digits2_pos_log2; lia). cbn [shr_m].
    unfold emax, prec. destruct (Z.leb_spec (- k + Zpos p) (1024 - 53)); [| lia].
    f_equal. lia.
  - (* fewer than 53 digits: shift left *)
    rewrite binary_round_aux_53.
    + f_equal; [| lia]. rewrite <- (Pos2Z.id (Pos.iter xO m p)) at 1.
      rewrite iter_xO_mul, Hm, <- Z.mul_assoc, <- Z.pow_add_r by lia.
      do 3 f_equal; lia.
    + rewrite digits2_pos_log2, iter_xO_mul, Hm, <- Z.mul_assoc, <- Z.pow_add_r by lia.
      rewrite Z.log2_mul_pow2 by lia. unfold digitsZ in *. lia.
    + lia.
Qed.

Lemma ofZ_pos (n : Z) : 0 < n < 2 ^ 53 -> ofZ n = canon false n.
Proof.
  intros Hn. destruct n as [| p | p]; try lia.
  unfold ofZ, binary_normalize.
  apply (binary_round_exact false p 0 (Zpos p)); lia.
Qed.

Lemma binary_normalize_exact (n e : Z) :
  e <= 0 -> 0 <= n < 2 ^ 53 ->
  binary_normalize prec emax (n * 2 ^ (- e)) e false = ofZ n.
Proof.
  intros He Hn. remember (- e) as k eqn:Ek.
  replace e with (- k) by lia. assert (Hk : 0 <= k) by lia. clear Ek He.
  destruct (Z.eq_dec n 0) as [-> | Hne].
  - reflexivity.
  - rewrite ofZ_pos by lia.
    assert (0 < n * 2 ^ k) by (apply Z.mul_pos_pos; [lia | apply Z.pow_pos_nonneg; lia]).
    destruct (n * 2 ^ k) as [| m | m] eqn:E; try lia.
    unfold binary_normalize. apply binary_round_exact; lia.
Qed.

Lemma canon_mantissa (n : Z) :
  0 < n < 2 ^ 53 -> Zpos (Z.to_pos (n * 2 ^ (53 - digitsZ n))) = n * 2 ^ (53 - digitsZ n).
Proof.
  intros Hn. pose proof (digitsZ_bounds n Hn).
  apply Z2Pos.id, Z.mul_pos_pos; [lia | apply Z.pow_pos_nonneg; lia].
Qed.

Lemma compare_canon (a b : Z) :
  0 < a < 2 ^ 53 -> 0 < b < 2 ^ 53 ->
  SFcompare (canon false a) (canon false b) = Some (a ?= b).
Proof.
  intros Ha Hb. unfold canon, SFcompare. f_equal.
  pose proof (digitsZ_bounds a Ha). pose proof (digitsZ_bounds b Hb).
  destruct (Z.compare_spec (digitsZ a - 53) (digitsZ b - 53)) as [E | E | E].
  - change (Pos.compare_cont Eq ?x ?y) with (Zpos x ?= Zpos y).
    rewrite !canon_mantissa by assumption.
    replace (digitsZ b) with (digitsZ a) by lia.
    symmetry. apply Zmult_compare_compat_r.
    apply Z.lt_gt, Z.pow_pos_nonneg; lia.
  - symmetry. apply Z.compare_lt_iff, Z.log2_lt_cancel. unfold digitsZ in E. lia.
  - symmetry. apply Z.compare_gt_iff, Z.log2_lt_cancel. unfold digitsZ in E. lia.
Qed.

Lemma compare_ofZ (a b : Z) :
  0 <= a < 2 ^ 53 -> 0 <= b < 2 ^ 53 ->
  SFcompare (ofZ a) (ofZ b) = Some (a ?= b).
Proof.
  intros Ha Hb.
  destruct (Z.eq_dec a 0) as [-> | Ha0]; destruct (Z.eq_dec b 0) as [-> | Hb0].
  - reflexivity.
  - rewrite (ofZ_pos b) by lia. destruct b; try lia. reflexivity.
  - rewrite (ofZ_pos a) by lia. destruct a; try lia. reflexivity.
  - rewrite (ofZ_pos a), (ofZ_pos b) by lia. apply compare_canon; lia.
Qed.

Lemma shl_align_fst (m : positive) (e e' : Z) :
  e' <= e -> Zpos (fst (shl_align m e e')) = Zpos m * 2 ^ (e - e').
Proof.
  intros H. unfold shl_align. destruct (e' - e) as [| p | p] eqn:E; try lia.
  - replace (e - e') with 0 by lia. simpl. lia.
  - cbn [fst]. rewrite iter_xO_mul. do 2 f_equal. lia.
Qed.

Lemma aligned_canon (n ez : Z) :
  0 < n < 2 ^ 53 -> ez <= digitsZ n - 53 ->
  Zpos (fst (shl_align (Z.to_pos (n * 2 ^ (53 - digitsZ n))) (digitsZ n - 53) ez))
  = n * 2 ^ (- ez).
Proof.
  intros Hn He. pose proof (digitsZ_bounds n Hn).
  rewrite shl_align_fst, canon_mantissa, <- Z.mul_assoc, <- Z.pow_add_r by lia.
  do 2 f_equal. lia.
Qed.

Lemma add_ofZ (a b : Z) :
  0 <= a -> 0 <= b -> a + b < 2 ^ 53 ->
  SFadd prec emax (ofZ a) (ofZ b) = ofZ (a + b).
Proof.
  intros Ha Hb Hab.
  destruct (Z.eq_dec a 0) as [-> | Ha0]; destruct (Z.eq_dec b 0) as [-> | Hb0].
  - reflexivity.
  - rewrite Z.add_0_l, (ofZ_pos b) by lia. reflexivity.
  - rewrite Z.add_0_r, (ofZ_pos a) by lia. reflexivity.
  - rewrite (ofZ_pos a), (ofZ_pos b) by lia. unfold canon, SFadd.
    pose proof (digitsZ_bounds a ltac:(lia)). pose proof (digitsZ_bounds b ltac:(lia)).
    set (ez := Z.min (digitsZ a - 53) (digitsZ b - 53)).
    rewrite !aligned_canon by lia. cbn [cond_Zopp].
    rewrite <- Z.mul_add_distr_r.
    apply binary_normalize_exact; lia.
Qed.

Lemma sub_ofZ (a b : Z) :
  0 <= b <= a -> a < 2 ^ 53 ->
  SFsub prec emax (ofZ a) (ofZ b) = ofZ (a - b).
Proof.
  intros Hb Ha.
  destruct (Z.eq_dec b 0) as [-> | Hb0].
  - rewrite Z.sub_0_r. destruct (Z.eq_dec a 0) as [-> | Ha0]; [reflexivity |].
    rewrite (ofZ_pos a) by lia. reflexivity.
  - rewrite (ofZ_pos a), (ofZ_pos b) by lia. unfold canon, SFsub.
    pose proof (digitsZ_bounds a ltac:(lia)). pose proof (digitsZ_bounds b ltac:(lia)).
    set (ez := Z.min (digitsZ a - 53) (digitsZ b - 53)).
    rewrite !aligned_canon by lia. cbn [cond_Zopp].
    rewrite <- Z.mul_sub_distr_r.
    apply binary_normalize_exact; lia.
Qed.

(** *** Non-negativity of a rounded difference, for all finite numbers *)

Lemma shr_1_nonneg (r : shr_record) : 0 <= shr_m r -> 0 <= shr_m (shr_1 r).
Proof.
  destruct r as [m b c]. cbn [shr_m]. intros H.
  destruct m as [| [p | p |] | p]; cbn; lia.
Qed.

Lemma iter_shr_1_nonneg (k : nat) (r : shr_record) :
  0 <= shr_m r -> 0 <= shr_m (Nat.iter k shr_1 r).
Proof.
  intros H. induction k as [| k IH]; [exact H |].
  cbn [Nat.iter nat_rect]. apply shr_1_nonneg, IH.
Qed.

Lemma shr_fexp_nonneg (m e : Z) (l : location) :
  0 <= m -> 0 <= shr_m (fst (shr_fexp prec emax m e l)).
Proof.
  intros H. unfold shr_fexp, shr.
  assert (H0 : 0 <= shr_m (shr_record_of_loc m l)) by (destruct l as [| []]; exact H).
  destruct (fexp prec emax (Zdigits2 m + e) - e); cbn [fst]; try exact H0.
  rewrite iter_pos_nat. apply iter_shr_1_nonneg, H0.
Qed.

Lemma round_nearest_even_nonneg (m : Z) (l : location) :
  0 <= m -> 0 <= round_nearest_even m l.
Proof.
  intros H. destruct l as [| []]; cbn; try lia. destruct (Z.even m); lia.
Qed.

Lemma binary_round_aux_nonneg (m e : Z) (l : location) :
  0 <= m -> nonneg (binary_round_aux prec emax false m e l) = true.
Proof.
  intros H. unfold binary_round_aux.
  pose proof (shr_fexp_nonneg m e l H) as H1.
  destruct (shr_fexp prec emax m e l) as [mrs' e'] eqn:E1. cbn [fst] in H1.
  pose proof (shr_fexp_nonneg _ e' loc_Exact
                (round_nearest_even_nonneg _ (loc_of_shr_record mrs') H1)) as H2.
  destruct (shr_fexp prec emax _ e' loc_Exact) as [mrs'' e''] eqn:E2. cbn [fst] in H2.
  destruct (shr_m mrs'') as [| p | p]; [reflexivity | | lia].
  destruct (e'' <=? emax - prec); reflexivity.
Qed.

Lemma binary_normalize_nonneg (m e : Z) :
  0 <= m -> nonneg (binary_normalize prec emax m e false) = true.
Proof.
  intros H. destruct m as [| p | p]; [reflexivity | | lia].
  unfold binary_normalize, binary_round.
  destruct (shl_align p e _) as [mz ez]. apply binary_round_aux_nonneg. lia.
Qed.

Lemma bounded_digits (m : positive) (e : Z) :
  bounded prec emax m e = true ->
  Zpos (digits2_pos m) <= 53 /\ (-1074 < e -> Zpos (digits2_pos m) = 53) /\ -1074 <= e.
Proof.
  unfold bounded, canonical_mantissa, fexp, emin, prec, emax.
  intros H. apply andb_prop in H as [H _]. apply Z.eqb_eq in H. lia.
Qed.

Lemma sub_nonneg (b a : spec_float) :
  finite b = true -> finite a = true ->
  nonneg a = true -> SFleb a b = true ->
  nonneg (SFsub prec emax b a) = true.
Proof.
  intros Hb Ha Ha0 Hab.
  destruct a as [sa | sa | | sa ma ea]; try discriminate;
    destruct b as [sb | sb | | sb mb eb]; try discriminate.
  - destruct sb, sa; reflexivity.
  - destruct sb; [discriminate |]. reflexivity.
  - destruct sa; discriminate.
  - destruct sa; [discriminate |]. destruct sb; [discriminate |].
    cbn [finite] in Ha, Hb.
    apply bounded_digits in Ha as (Ha1 & Ha2 & Ha3).
    apply bounded_digits in Hb as (Hb1 & Hb2 & Hb3).
    unfold SFsub. apply binary_normalize_nonneg. cbn [cond_Zopp].
    unfold SFleb, SFcompare in Hab.
    rewrite !shl_align_fst by lia.
    destruct (Z.compare_spec ea eb) as [E | E | E]; try discriminate.
    + subst eb. rewrite Z.min_id, Z.sub_diag, !Z.mul_1_r.
      change (Pos.compare_cont Eq ma mb) with (Zpos ma ?= Zpos mb) in Hab.
      destruct (Z.compare_spec (Zpos ma) (Zpos mb)); try discriminate; lia.
    + rewrite Z.min_r by lia. rewrite Z.sub_diag, Z.mul_1_r.
      assert (H53 : Zpos (digits2_pos mb) = 53) by (apply Hb2; lia).
      rewrite digits2_pos_log2 in H53, Ha1.
      assert (Zpos ma < 2 ^ 53) by (apply Z.log2_lt_pow2; lia).
      assert (2 ^ 52 <= Zpos mb) by (apply Z.log2_le_pow2; lia).
      assert (2 ^ 1 <= 2 ^ (eb - ea)) by (apply Z.pow_le_mono_r; lia).
      nia.
Qed.

(** *** The script's operators on integers *)

Lemma leb_ofZ (a b : Z) :
  0 <= a < 2 ^ 53 -> 0 <= b < 2 ^ 53 -> leb (ofZ a) (ofZ b) = (a <=? b).
Proof.
  intros Ha Hb. unfold leb, SFleb. rewrite compare_ofZ by assumption.
  unfold Z.leb. destruct (a ?= b); reflexivity.
Qed.

Lemma ltb_ofZ (a b : Z) :
  0 <= a < 2 ^ 53 -> 0 <= b < 2 ^ 53 -> ltb (ofZ a) (ofZ b) = (a <? b).
Proof.
  intros Ha Hb. unfold ltb, SFltb. rewrite compare_ofZ by assumption.
  unfold Z.ltb. destruct (a ?= b); reflexivity.
Qed.

Lemma geb_ofZ (a b : Z) :
  0 <= a < 2 ^ 53 -> 0 <= b < 2 ^ 53 -> geb (ofZ a) (ofZ b) = (b <=? a).
Proof. intros Ha Hb. unfold geb. apply (leb_ofZ b a); assumption. Qed.

Lemma truthy_ofZ (n : Z) : 0 < n < 2 ^ 53 -> truthy (ofZ n) = true.
Proof. intros Hn. rewrite ofZ_pos by assumption. reflexivity. Qed.

Lemma orElse_ofZ (n : Z) (d : number) :
  0 < n < 2 ^ 53 -> orElse (Some (ofZ n)) d = ofZ n.
Proof. intros Hn. unfold orElse. rewrite truthy_ofZ by assumption. reflexivity. Qed.

Lemma orElse_zero_ofZ (n : Z) :
  0 <= n < 2 ^ 53 -> orElse (Some (ofZ n)) zero = ofZ n.
Proof.
  intros Hn. destruct (Z.eq_dec n 0) as [-> | Hne]; [reflexivity |].
  apply orElse_ofZ. lia.
Qed.

Lemma js_add_ofZ (a b : Z) :
  0 <= a -> 0 <= b -> a + b < 2 ^ 53 -> add (ofZ a) (ofZ b) = ofZ (a + b).
Proof. apply add_ofZ. Qed.

Lemma js_sub_ofZ (a b : Z) :
  0 <= b <= a -> a < 2 ^ 53 -> sub (ofZ a) (ofZ b) = ofZ (a - b).
Proof. apply sub_ofZ. Qed.

Lemma finite_ofZ (n : Z) : 0 <= n < 2 ^ 53 -> finite (ofZ n) = true.
Proof.
  intros Hn. destruct (Z.eq_dec n 0) as [-> | Hne]; [reflexivity |].
  rewrite ofZ_pos by lia. pose proof (digitsZ_bounds n ltac:(lia)) as Hd.
  unfold canon, finite, bounded, canonical_mantissa.
  rewrite digits2_pos_log2, canon_mantissa, Z.log2_mul_pow2 by lia.
  replace (53 - digitsZ n + Z.log2 n + 1 + (digitsZ n - 53)) with (digitsZ n)
    by (unfold digitsZ; lia).
  rewrite fexp_small by lia.
  apply andb_true_intro. split; [apply Z.eqb_eq | apply Z.leb_le; unfold emax, prec]; lia.
Qed.

Lemma finite_isFinite (x : number) : finite x = true -> isFinite x = true.
Proof. destruct x; (reflexivity || discriminate). Qed.

Lemma isFinite_ofZ (n : Z) : 0 <= n < 2 ^ 53 -> isFinite (ofZ n) = true.
Proof. intros Hn. apply finite_isFinite, finite_ofZ, Hn. Qed.

Lemma nonneg_ofZ (n : Z) : 0 <= n < 2 ^ 53 -> nonneg (ofZ n) = true.
Proof.
  intros Hn. unfold nonneg. change zero with (ofZ 0).
  rewrite leb_ofZ by lia. apply Z.leb_le. lia.
Qed.

Lemma binary_round_aux_exact (s : bool) (m : positive) (k n : Z) :
  Zpos m = n * 2 ^ k -> 0 <= k -> 0 < n < 2 ^ 53 -> 53 <= digitsZ n + k ->
  binary_round_aux prec emax s (Zpos m) (- k) loc_Exact = canon s n.
Proof.
  intros Hm Hk Hn Hge.
  pose proof (binary_round_exact s m k n Hm Hk Hn) as H.
  unfold binary_round in H.
  assert (Hdm : Zpos (digits2_pos m) = digitsZ n + k).
  { rewrite digits2_pos_log2, Hm, Z.log2_mul_pow2 by lia. unfold digitsZ. lia. }
  rewrite Hdm, fexp_small in H by (pose proof (digitsZ_bounds n Hn); lia).
  unfold shl_align in H.
  destruct (digitsZ n + k + - k - 53 - - k) as [| p | p] eqn:E; try lia; exact H.
Qed.

Lemma mul_ofZ (a b : Z) :
  0 <= a < 2 ^ 53 -> 0 <= b < 2 ^ 53 -> a * b < 2 ^ 53 ->
  mul (ofZ a) (ofZ b) = ofZ (a * b).
Proof.
  intros Ha Hb Hab.
  destruct (Z.eq_dec a 0) as [-> | Ha0].
  { destruct (Z.eq_dec b 0) as [-> | Hb0]; [reflexivity |].
    rewrite (ofZ_pos b) by lia. reflexivity. }
  destruct (Z.eq_dec b 0) as [-> | Hb0].
  { rewrite Z.mul_0_r, (ofZ_pos a) by lia. reflexivity. }
  assert (0 < a * b) by nia.
  rewrite (ofZ_pos a), (ofZ_pos b), (ofZ_pos (a * b)) by lia.
  pose proof (digitsZ_bounds a ltac:(lia)) as Hda.
  pose proof (digitsZ_bounds b ltac:(lia)) as Hdb.
  unfold mul. unfold canon at 1 2. cbn [SFmul xorb].
  replace (digitsZ a - 53 + (digitsZ b - 53)) with (- (106 - digitsZ a - digitsZ b)) by lia.
  apply binary_round_aux_exact; try lia.
  - rewrite Pos2Z.inj_mul, !canon_mantissa by lia.
    replace (106 - digitsZ a - digitsZ b) with ((53 - digitsZ a) + (53 - digitsZ b)) by lia.
    rewrite Z.pow_add_r by lia. ring.
  - pose proof (Z.log2_mul_below a b ltac:(lia) ltac:(lia)). unfold digitsZ in *. lia.
Qed.

(** *** Products, and quotients by one hundred *)

Lemma binary_round_aux_tail (q e : Z) (l : location) :
  binary_round_aux prec emax false q e l
  = roundTail (round_nearest_even (shr_m (fst (shr_fexp prec emax q e l)))
                             (loc_of_shr_record (fst (shr_fexp prec emax q e l))))
         (snd (shr_fexp prec emax q e l)).
Proof.
  unfold binary_round_aux, roundTail. destruct (shr_fexp prec emax q e l) as [mrs' e'].
  reflexivity.
Qed.

Lemma roundTail_normal (m1 e : Z) :
  2 ^ 52 <= m1 <= 2 ^ 53 -> -1074 <= e <= 970 ->
  roundTail m1 e = if m1 <? 2 ^ 53 then S754_finite false (Z.to_pos m1) e
              else S754_finite false (Z.to_pos (2 ^ 52)) (e + 1).
Proof.
  intros Hm He. unfold roundTail.
  destruct (Z.ltb_spec m1 (2 ^ 53)) as [Hlt | Hge].
  - destruct m1 as [| p | p]; try lia.
    rewrite shr_fexp_53; [| | lia].
    + cbn [shr_m]. unfold emax, prec. destruct (Z.leb_spec e (1024 - 53)); [reflexivity | lia].
    + rewrite digits2_pos_log2.
      assert (Z.log2 (Zpos p) = 52).
      { apply Z.log2_unique; [lia | change (2 ^ Z.succ 52) with (2 ^ 53); lia]. }
      lia.
  - assert (m1 = 2 ^ 53) by lia. subst m1.
    unfold shr_fexp. replace (Zdigits2 (2 ^ 53)) with 54 by reflexivity.
    rewrite fexp_small by lia.
    replace (54 + e - 53 - e) with 1 by lia.
    cbn. unfold emax, prec. destruct (Z.leb_spec (e + 1) (1024 - 53)); [reflexivity | lia].
Qed.

Lemma round_quotient (q K : Z) (l : location) :
  2 ^ 52 <= q < 2 ^ 54 - 2 -> 7 <= K <= 59 ->
  exists mf kk,
    binary_round_aux prec emax false q (- K) l = S754_finite false mf (- kk)
    /\ (kk = K \/ kk = K - 1)
    /\ (l = loc_Exact -> Z.even q = true -> Zpos mf * 2 ^ (K - kk) = q)
    /\ (l = loc_Exact -> q - 1 <= Zpos mf * 2 ^ (K - kk) <= q + 1)
    /\ (l <> loc_Exact -> q <= Zpos mf * 2 ^ (K - kk) <= q + 2).
Proof.
  intros Hq HK. rewrite binary_round_aux_tail.
  assert (Hfin : forall m1 e, 2 ^ 52 <= m1 <= 2 ^ 53 -> (e = - K \/ (e = - (K - 1) /\ m1 < 2 ^ 53)) ->
            exists mf kk, roundTail m1 e = S754_finite false mf (- kk)
                          /\ (kk = K \/ kk = K - 1)
                          /\ Zpos mf * 2 ^ (K - kk) = m1 * 2 ^ (K + e)).
  { intros m1 e Hm He. rewrite roundTail_normal by lia.
    destruct (Z.ltb_spec m1 (2 ^ 53)).
    - exists (Z.to_pos m1), (- e). rewrite Z.opp_involutive, Z2Pos.id by lia.
      split; [reflexivity |]. split; [lia |]. do 2 f_equal. lia.
    - destruct He as [-> | [_ ?]]; [| lia].
      exists (Z.to_pos (2 ^ 52)), (K - 1). split; [f_equal; lia |]. split; [lia |].
      replace (K - (K - 1)) with 1 by lia. replace (K + - K) with 0 by lia.
      assert (m1 = 2 ^ 53) by lia. subst m1. reflexivity. }
  destruct q as [| p | p]; try lia.
  destruct (Z.ltb_spec (Zpos p) (2 ^ 53)) as [Hlt | Hge].
  - (* 53 digits: the quotient is rounded in place *)
    assert (Hd : Zpos (digits2_pos p) = 53).
    { rewrite digits2_pos_log2. assert (Z.log2 (Zpos p) = 52); [| lia].
      apply Z.log2_unique; [lia | change (2 ^ Z.succ 52) with (2 ^ 53); lia]. }
    unfold shr_fexp, Zdigits2. rewrite Hd, fexp_small by lia.
    replace (53 + - K - 53 - - K) with 0 by lia. cbn [shr fst snd].
    destruct l as [| [| |]]; cbn [shr_record_of_loc shr_m loc_of_shr_record round_nearest_even].
    + destruct (Hfin (Zpos p) (- K)) as (mf & kk & E1 & E2 & E3); [lia | lia |].
      exists mf, kk. rewrite E1, E3. replace (K + - K) with 0 by lia.
      split_and!; try tauto; intros; lia.
    + destruct (Z.even (Zpos p)).
      * destruct (Hfin (Zpos p) (- K)) as (mf & kk & E1 & E2 & E3); [lia | lia |].
        exists mf, kk. rewrite E1, E3. replace (K + - K) with 0 by lia.
        split_and!; try tauto; try discriminate; intros; lia.
      * destruct (Hfin (Zpos p + 1) (- K)) as (mf & kk & E1 & E2 & E3); [lia | lia |].
        exists mf, kk. rewrite E1, E3. replace (K + - K) with 0 by lia.
        split_and!; try tauto; try discriminate; intros; lia.
    + destruct (Hfin (Zpos p) (- K)) as (mf & kk & E1 & E2 & E3); [lia | lia |].
      exists mf, kk. rewrite E1, E3. replace (K + - K) with 0 by lia.
      split_and!; try tauto; try discriminate; intros; lia.
    + destruct (Hfin (Zpos p + 1) (- K)) as (mf & kk & E1 & E2 & E3); [lia | lia |].
      exists mf, kk. rewrite E1, E3. replace (K + - K) with 0 by lia.
      split_and!; try tauto; try discriminate; intros; lia.
  - (* 54 digits: one bit is shifted out before rounding *)
    assert (Hd : Zpos (digits2_pos p) = 54).
    { rewrite digits2_pos_log2. assert (Z.log2 (Zpos p) = 53); [| lia].
      apply Z.log2_unique; [lia | change (2 ^ Z.succ 53) with (2 ^ 54); lia]. }
    unfold shr_fexp, Zdigits2. rewrite Hd, fexp_small by lia.
    replace (54 + - K - 53 - - K) with 1 by lia. cbn [shr fst snd SpecFloat.iter_pos].
    replace (- K + 1) with (- (K - 1)) by lia.
    assert (HW : forall x, x * 2 ^ (K + - (K - 1)) = 2 * x).
    { intros x. replace (K + - (K - 1)) with 1 by lia. lia. }
    destruct p as [p' | p' |]; [| | lia];
      destruct l as [| [| |]];
      cbn [shr_record_of_loc shr_1 orb shr_m loc_of_shr_record round_nearest_even];
      try destruct (Z.even (Zpos p'));
      match goal with
      | |- context [roundTail ?m ?e] =>
          destruct (Hfin m e) as (mf & kk & E1 & E2 & E3); [lia | lia |];
          exists mf, kk; rewrite E1, E3, HW;
          split_and!; try tauto; try discriminate; intros; lia
      end.
Qed.

Lemma pow2_digits_bounds (n : Z) :
  0 < n -> 2 ^ (digitsZ n - 1) <= n < 2 ^ digitsZ n.
Proof.
  intros Hn. unfold digitsZ. replace (Z.log2 n + 1 - 1) with (Z.log2 n) by lia.
  apply Z.log2_spec. exact Hn.
Qed.

Lemma scaled_bounds (n : Z) :
  0 < n < 2 ^ 53 -> 2 ^ 59 <= n * 2 ^ (60 - digitsZ n) < 2 ^ 60.
Proof.
  intros Hn. pose proof (digitsZ_bounds n Hn) as Hd.
  pose proof (pow2_digits_bounds n ltac:(lia)) as [H1 H2].
  assert (Hp : 0 < 2 ^ (60 - digitsZ n)) by (apply Z.pow_pos_nonneg; lia).
  assert (E1 : 2 ^ 59 = 2 ^ (digitsZ n - 1) * 2 ^ (60 - digitsZ n)).
  { rewrite <- Z.pow_add_r by lia. f_equal. lia. }
  assert (E2 : 2 ^ 60 = 2 ^ digitsZ n * 2 ^ (60 - digitsZ n)).
  { rewrite <- Z.pow_add_r by lia. f_equal. lia. }
  rewrite E1, E2. split.
  - apply Z.mul_le_mono_nonneg_r; lia.
  - apply Z.mul_lt_mono_pos_r; lia.
Qed.

Lemma div_core_hundred (n : Z) :
  0 < n < 2 ^ 53 ->
  let N := n * 2 ^ (60 - digitsZ n) in
  SFdiv_core_binary prec emax
    (Zpos (Z.to_pos (n * 2 ^ (53 - digitsZ n)))) (digitsZ n - 53)
    (Zpos 7036874417766400) (-46)
  = (N / 100, - (60 - digitsZ n),
     if N mod 100 =? 0 then loc_Exact else loc_Inexact (N mod 100 ?= 50)).
Proof.
  intros Hn N. pose proof (digitsZ_bounds n Hn) as Hd.
  unfold SFdiv_core_binary.
  replace (Zdigits2 (Zpos 7036874417766400)) with 53 by reflexivity.
  cbn [Zdigits2].
  rewrite digits2_pos_log2, canon_mantissa, Z.log2_mul_pow2 by lia.
  replace (Z.log2 n + (53 - digitsZ n) + 1) with 53 by (unfold digitsZ; lia).
  replace (53 - digitsZ n + Z.log2 n + 1) with 53 by (unfold digitsZ; lia).
  rewrite fexp_small by lia.
  replace (Z.min (53 + (digitsZ n - 53) - (53 + -46) - 53) (digitsZ n - 53 - -46))
    with (- (60 - digitsZ n)) by lia.
  replace (digitsZ n - 53 - -46 - - (60 - digitsZ n)) with 53 by lia.
  rewrite Z.shiftl_mul_pow2 by lia.
  assert (EN : n * 2 ^ (53 - digitsZ n) * 2 ^ 53 = N * 2 ^ 46).
  { subst N. rewrite <- !Z.mul_assoc, <- !Z.pow_add_r by lia. do 2 f_equal. lia. }
  rewrite EN.
  change (Zpos 7036874417766400) with (100 * 2 ^ 46).
  pose proof (Z_div_mod_eq_full (N * 2 ^ 46) (100 * 2 ^ 46)) as Hdm.
  unfold Z.div, Z.modulo in Hdm |- *.
  destruct (Z.div_eucl (N * 2 ^ 46) (100 * 2 ^ 46)) as [q r] eqn:E.
  assert (Hq : q = (N * 2 ^ 46) / (100 * 2 ^ 46)) by (unfold Z.div; rewrite E; reflexivity).
  assert (Hr : r = (N * 2 ^ 46) mod (100 * 2 ^ 46)) by (unfold Z.modulo; rewrite E; reflexivity).
  rewrite Z.div_mul_cancel_r in Hq by lia.
  rewrite Z.mul_mod_distr_r in Hr by lia.
  fold (Z.div N 100) in *. fold (Z.modulo N 100) in *.
  rewrite Hq. f_equal.
  unfold new_location. replace (Z.even (100 * 2 ^ 46)) with true by reflexivity.
  unfold new_location_even. rewrite Hr.
  pose proof (Z.mod_pos_bound N 100 ltac:(lia)) as Hb.
  destruct (Z.eqb_spec (N mod 100) 0) as [E0 | E0].
  - rewrite E0. reflexivity.
  - destruct (Z.eqb_spec (N mod 100 * 2 ^ 46) 0) as [E1 | E1]; [lia |].
    f_equal. replace (2 * (N mod 100 * 2 ^ 46)) with ((2 * (N mod 100)) * 2 ^ 46) by lia.
    rewrite <- Zmult_compare_compat_r by lia.
    change 100 with (2 * 50) at 2. symmetry. apply Zmult_compare_compat_l. lia.
Qed.

Lemma div_ofZ_hundred (n : Z) :
  0 < n < 2 ^ 53 ->
  exists mf kk,
    div (ofZ n) hundred = S754_finite false mf (- kk)
    /\ 6 <= kk <= 59
    /\ (n mod 100 = 0 -> Zpos mf = n / 100 * 2 ^ kk)
    /\ (n mod 100 <> 0 -> n / 100 * 2 ^ kk < Zpos mf <= (n / 100 + 1) * 2 ^ kk).
Proof.
  intros Hn. pose proof (digitsZ_bounds n Hn) as Hd.
  pose proof (scaled_bounds n Hn) as HN.
  rewrite ofZ_pos by assumption. unfold div, hundred.
  replace (ofZ 100) with (S754_finite false 7036874417766400 (-46)) by reflexivity.
  unfold canon. cbn [SFdiv xorb]. rewrite div_core_hundred by assumption.
  set (K := 60 - digitsZ n) in *. set (N := n * 2 ^ K) in *.
  set (l := if N mod 100 =? 0 then loc_Exact else loc_Inexact (N mod 100 ?= 50)).
  assert (HK : 7 <= K <= 59) by (subst K; lia).
  assert (HP : 128 <= 2 ^ K).
  { change 128 with (2 ^ 7). apply Z.pow_le_mono_r; lia. }
  assert (HP2 : 2 ^ K = 2 * 2 ^ (K - 1)).
  { rewrite <- Z.pow_succ_r by lia. f_equal. lia. }
  destruct (round_quotient (N / 100) K l) as (mf & kk & E & Hkk & Hev & Hex & Hin).
  { split.
    - apply Z.div_le_lower_bound; lia.
    - apply Z.div_lt_upper_bound; lia. }
  { exact HK. }
  exists mf, kk. split; [exact E |]. split; [lia |].
  (* the quotient and the remainder of the scaled dividend *)
  pose proof (Z_div_mod_eq_full n 100) as Hn100.
  pose proof (Z.mod_pos_bound n 100 ltac:(lia)) as Hf.
  set (c := n / 100) in *. set (f := n mod 100) in *.
  assert (Hc : 0 <= c) by (subst c; apply Z.div_pos; lia).
  assert (EN : N = (c * 2 ^ K) * 100 + f * 2 ^ K) by (subst N; lia).
  assert (Hq : N / 100 = c * 2 ^ K + (f * 2 ^ K) / 100).
  { rewrite EN, Z.div_add_l by lia. reflexivity. }
  assert (Hr : N mod 100 = (f * 2 ^ K) mod 100).
  { rewrite EN, Z.add_comm, Z.mod_add by lia. reflexivity. }
  assert (HW : Zpos mf * 2 ^ (K - kk) = Zpos mf \/ (kk = K - 1 /\ Zpos mf * 2 ^ (K - kk) = 2 * Zpos mf)).
  { destruct Hkk as [-> | ->].
    - left. rewrite Z.sub_diag. lia.
    - right. split; [reflexivity |]. replace (K - (K - 1)) with 1 by lia. lia. }
  split.
  - (* the dividend is a multiple of one hundred *)
    intros Hf0.
    assert (El : l = loc_Exact) by (subst l; rewrite Hr, Hf0; reflexivity).
    assert (Eq : N / 100 = c * 2 ^ K) by (rewrite Hq, Hf0, Z.mul_0_l, Zdiv_0_l; lia).
    assert (Heven : Z.even (N / 100) = true).
    { rewrite Eq, HP2. replace (c * (2 * 2 ^ (K - 1))) with (2 * (c * 2 ^ (K - 1))) by lia.
      rewrite Z.even_mul. reflexivity. }
    specialize (Hev El Heven). rewrite Eq in Hev.
    destruct Hkk as [-> | ->].
    + rewrite Z.sub_diag in Hev. lia.
    + replace (K - (K - 1)) with 1 in Hev by lia. lia.
  - intros Hf0.
    pose proof (Z_div_mod_eq_full (f * 2 ^ K) 100) as Hg.
    pose proof (Z.mod_pos_bound (f * 2 ^ K) 100 ltac:(lia)) as Hr0.
    set (g := (f * 2 ^ K) / 100) in *. set (r0 := (f * 2 ^ K) mod 100) in *.
    assert (HX : 2 ^ K <= f * 2 ^ K <= 99 * 2 ^ K) by nia.
    assert (Hg1 : 1 <= g <= 2 ^ K - 2) by lia.
    assert (HWb : c * 2 ^ K < Zpos mf * 2 ^ (K - kk) <= (c + 1) * 2 ^ K).
    { destruct (Z.eq_dec r0 0) as [Er | Er].
      - assert (El : l = loc_Exact) by (subst l; rewrite Hr; fold r0; rewrite Er; reflexivity).
        specialize (Hex El). rewrite Hq in Hex. fold g in Hex.
        assert (2 <= g) by lia. lia.
      - assert (El : l <> loc_Exact).
        { subst l. rewrite Hr. fold r0. destruct (Z.eqb_spec r0 0); [lia | discriminate]. }
        specialize (Hin El). rewrite Hq in Hin. fold g in Hin. lia. }
    destruct Hkk as [-> | ->].
    + rewrite Z.sub_diag in HWb. lia.
    + replace (K - (K - 1)) with 1 in HWb by lia. lia.
Qed.

Lemma ceil_finite (mf : positive) (kk c : Z) :
  0 < kk -> 0 <= c ->
  (Zpos mf = c * 2 ^ kk -> ceil (S754_finite false mf (- kk)) = ofZ c)
  /\ (c * 2 ^ kk < Zpos mf <= (c + 1) * 2 ^ kk ->
      ceil (S754_finite false mf (- kk)) = ofZ (c + 1)).
Proof.
  intros Hk Hc. destruct kk as [| kp | kp]; try lia.
  change (- Zpos kp) with (Zneg kp). cbn [ceil].
  rewrite Z.shiftr_div_pow2, Z.shiftl_mul_pow2 by lia.
  assert (HP : 0 < 2 ^ Zpos kp) by (apply Z.pow_pos_nonneg; lia).
  split.
  - intros E. rewrite E, Z.div_mul, Z.eqb_refl by lia. reflexivity.
  - intros [H1 H2]. destruct (Z.eq_dec (Zpos mf) ((c + 1) * 2 ^ Zpos kp)) as [E | E].
    + rewrite E, Z.div_mul, Z.eqb_refl by lia. reflexivity.
    + assert (Eq : Zpos mf / 2 ^ Zpos kp = c).
      { symmetry. apply (Z.div_unique _ _ c (Zpos mf - c * 2 ^ Zpos kp)); lia. }
      rewrite Eq. destruct (Z.eqb_spec (c * 2 ^ Zpos kp) (Zpos mf)); [lia | reflexivity].
Qed.

Lemma exactCeilPercent_cases (a b : Z) :
  exactCeilPercent a b
  = if (a * b) mod 100 =? 0 then a * b / 100 else a * b / 100 + 1.
Proof.
  unfold exactCeilPercent.
  destruct (Z.eqb_spec ((a * b) mod 100) 0) as [E | E].
  - rewrite Z.div_opp_l_z by lia. lia.
  - rewrite Z.div_opp_l_nz by lia. lia.
Qed.

Lemma exactCeilPercent_bounds (a b : Z) :
  0 <= a -> 0 <= b -> 0 <= exactCeilPercent a b <= a * b.
Proof.
  intros Ha Hb. rewrite exactCeilPercent_cases.
  assert (Hn : 0 <= a * b) by nia.
  pose proof (Z.div_mod (a * b) 100 ltac:(lia)) as Hdm.
  pose proof (Z.mod_pos_bound (a * b) 100 ltac:(lia)) as Hmod.
  destruct (Z.eqb_spec ((a * b) mod 100) 0); lia.
Qed.

Lemma withdrawalFee_ofZ (a p : Z) :
  0 <= a < 2 ^ 53 -> 0 <= p < 2 ^ 53 -> a * p < 2 ^ 53 ->
  withdrawalFee (ofZ a) (ofZ p) = ofZ (exactCeilPercent a p).
Proof.
  intros Ha Hp Hap. unfold withdrawalFee. rewrite mul_ofZ by assumption.
  rewrite exactCeilPercent_cases.
  assert (Hn : 0 <= a * p) by nia.
  destruct (Z.eq_dec (a * p) 0) as [-> | Hne]; [reflexivity |].
  destruct (div_ofZ_hundred (a * p)) as (mf & kk & E & Hkk & H0 & H1); [lia |].
  rewrite E.
  assert (Hc : 0 <= a * p / 100) by (apply Z.div_pos; lia).
  destruct (ceil_finite mf kk (a * p / 100) ltac:(lia) Hc) as [C0 C1].
  destruct (Z.eqb_spec ((a * p) mod 100) 0) as [E0 | E0]; auto.
Qed.

End JSFacts.

(* ===================================================================== *)
(** ** The join flow *)
(* ===================================================================== *)

(** Settles membership of an event in an explicit trace. *)
Ltac in_trace :=
  cbv [toasts]; cbn [app trace store omap list_omap];
  rewrite ?elem_of_cons, ?elem_of_nil; intuition (discriminate || congruence).

(** Unfolds a run of the script down to the decisions it takes. *)
Ltac run :=
  cbv [exec result joinTournament requestWithdrawal onceUser onceSettings
       txTournament txBalance txJoinedCount transaction setJoin
       pushWithdrawal showToast emit getStore putStore
       mbind mret M_bind M_ret fst snd store trace app].

(* ===================================================================== *)
(** ** Slot reservation and release *)
(* ===================================================================== *)

Section Capacity.

Import JS JSFacts.

Context (tId : string).

Lemma store_eta (s : Store) :
  {| users := users s; tournaments := tournaments s;
     tournamentJoins := tournamentJoins s; walletHistory := walletHistory s;
     withdrawals := withdrawals s; appSettings := appSettings s |} = s.
Proof. destruct s; reflexivity. Qed.



(** The update callback on a well-formed tournament. *)
Lemma reserveSlotUpdate_ofZ (c : Tournament) (jc mx : Z) :
  joinedCount c = Some (ofZ jc) -> maxSlots c = Some (ofZ mx) ->
  0 <= jc < 2 ^ 53 -> 0 <= mx < 2 ^ 53 -> jc + 1 < 2 ^ 53 ->
  reserveSlotUpdate (Some c)
  = if mx <=? jc then TxAbort
    else TxWrite (Some (setJoinedCount (Some (ofZ (jc + 1))) c)).
Proof.
  intros Hjc Hmx Hj Hm Hj1. unfold reserveSlotUpdate.
  rewrite Hjc, Hmx. cbn [toNumber]. rewrite geb_ofZ by assumption.
  destruct (mx <=? jc); [reflexivity |].
  rewrite orElse_zero_ofZ by assumption.
  unfold one. rewrite js_add_ofZ by lia. reflexivity.
Qed.

(** C2.  On a tournament with positive [maxSlots] and
    [0 <= joinedCount <= maxSlots] the slot transaction commits exactly when
    the store answers and [joinedCount < maxSlots]; a commit replaces
    [joinedCount] by [joinedCount + 1] and nothing else, every other outcome
    leaves the store as it was, and [joinedCount] is at most [maxSlots]
    afterwards. *)
Theorem reserve_slot_respects_capacity (fault : bool) (s : Store)
    (c : Tournament) (jc mx : Z) :
  tournaments s !! tId = Some c ->
  joinedCount c = Some (ofZ jc) -> maxSlots c = Some (ofZ mx) ->
  0 <= jc <= mx -> 0 < mx < 2 ^ 53 ->
  let r := result (txTournament tId fault reserveSlotUpdate) s in
  let w := exec (txTournament tId fault reserveSlotUpdate) s in
  (r = TxCommitted <-> fault = false /\ jc < mx)
  /\ (r = TxCommitted ->
      store w = withTournaments (insert tId (setJoinedCount (Some (ofZ (jc + 1))) c)) s
      /\ getJoinedCount tId (store w) = Some (ofZ (jc + 1)) /\ jc + 1 <= mx)
  /\ (r <> TxCommitted ->
      store w = s /\ getJoinedCount tId (store w) = Some (ofZ jc)).
Proof.
  intros Hc Hjc Hmx Hj Hm. cbv zeta. run.
  assert (Hget : getJoinedCount tId s = Some (ofZ jc)).
  { unfold getJoinedCount. rewrite Hc. exact Hjc. }
  destruct fault.
  { cbn. split_and!; [intuition discriminate | discriminate | intros _; auto]. }
  unfold getTournament. rewrite Hc.
  destruct (Z.eq_dec jc mx) as [-> | Hne].
  - unfold reserveSlotUpdate. rewrite Hjc, Hmx. cbn [toNumber].
    rewrite geb_ofZ, Z.leb_refl by lia. cbn.
    split_and!; [split; [discriminate | lia] | discriminate | intros _; auto].
  - rewrite (reserveSlotUpdate_ofZ c jc mx) by (assumption || lia).
    destruct (Z.leb_spec mx jc); [lia |]. cbn.
    split_and!; [split; [intros _; split; [reflexivity | lia] | reflexivity] | | congruence].
    intros _. split_and!; [reflexivity | | lia].
    unfold getJoinedCount. cbn. rewrite lookup_insert_eq. reflexivity.
Qed.

Lemma releaseSlotUpdate_ofZ (n : Z) :
  0 <= n < 2 ^ 53 ->
  releaseSlotUpdate (Some (ofZ n)) = TxWrite (Some (ofZ (Z.max (n - 1) 0))).
Proof.
  intros Hn. unfold releaseSlotUpdate.
  destruct (Z.eq_dec n 0) as [-> | Hne]; [reflexivity |].
  rewrite orElse_ofZ by lia. unfold one. rewrite js_sub_ofZ by lia.
  do 3 f_equal. lia.
Qed.


(** C8 (as the code has it).  The compensating callback takes a non-negative
    integer counter [c] to [max (c - 1) 0] and a missing counter to [0].
    Run once after a reservation it gives back the value [n] from before the
    reservation; run twice it leaves [max (n - 1) 0], which is not negative
    and is below [n] exactly when [n >= 1]. *)
Theorem release_decrements_floored (n : Z) :
  0 <= n -> n + 1 < 2 ^ 53 ->
  releaseSlotUpdate (Some (ofZ n)) = TxWrite (Some (ofZ (Z.max (n - 1) 0)))
  /\ releaseSlotUpdate None = TxWrite (Some (ofZ 0))
  /\ releaseSlotUpdate (Some (ofZ (n + 1))) = TxWrite (Some (ofZ n))
  /\ releaseTwice (Some (ofZ (n + 1))) = Some (ofZ (Z.max (n - 1) 0))
  /\ nonneg (ofZ (Z.max (n - 1) 0)) = true
  /\ ltb (ofZ (Z.max (n - 1) 0)) (ofZ n) = (1 <=? n).
Proof.
  intros H0 H1. split_and!.
  - apply releaseSlotUpdate_ofZ. lia.
  - reflexivity.
  - rewrite releaseSlotUpdate_ofZ by lia. do 3 f_equal. lia.
  - unfold releaseTwice. rewrite releaseSlotUpdate_ofZ by lia.
    replace (Z.max (n + 1 - 1) 0) with n by lia.
    rewrite releaseSlotUpdate_ofZ by lia. reflexivity.
  - apply nonneg_ofZ. lia.
  - rewrite ltb_ofZ by lia.
    destruct (Z.ltb_spec (Z.max (n - 1) 0) n), (Z.leb_spec 1 n); lia || reflexivity.
Qed.

End Capacity.

Lemma release_decrements_floored_witness :
  releaseSlotUpdate (Some (JS.ofZ 5)) = TxWrite (Some (JS.ofZ (Z.max (5 - 1) 0)))
  /\ releaseSlotUpdate None = TxWrite (Some (JS.ofZ 0))
  /\ releaseSlotUpdate (Some (JS.ofZ (5 + 1))) = TxWrite (Some (JS.ofZ 5))
  /\ releaseTwice (Some (JS.ofZ (5 + 1))) = Some (JS.ofZ (Z.max (5 - 1) 0))
  /\ JS.nonneg (JS.ofZ (Z.max (5 - 1) 0)) = true
  /\ JS.ltb (JS.ofZ (Z.max (5 - 1) 0)) (JS.ofZ 5) = (1 <=? 5).
Proof. apply (release_decrements_floored 5); lia. Defined.

(** C8 fails as stated: a tournament with five members takes a reservation
    (six), and two releases leave four, below the five from before the
    reservation; and a counter that is already negative is driven further
    down. *)
Lemma release_twice_goes_below_start :
  reserveSlotUpdate (Some (sampleTournament 100 10 5))
  = TxWrite (Some (setJoinedCount (Some (JS.ofZ 6)) (sampleTournament 100 10 5)))
  /\ releaseTwice (Some (JS.ofZ 6)) = Some (JS.ofZ 4)
  /\ JS.ltb (JS.ofZ 4) (JS.ofZ 5) = true
  /\ releaseSlotUpdate (Some (JS.ofZ (-3))) = TxWrite (Some (JS.ofZ (-4)))
  /\ JS.ltb (JS.ofZ (-4)) JS.zero = true.
Proof. vm_compute. repeat split. Qed.

Lemma reserve_slot_respects_capacity_witness :
  let s := sampleStore 150 100 2 1 in
  let r := result (txTournament "t1" false reserveSlotUpdate) s in
  let w := exec (txTournament "t1" false reserveSlotUpdate) s in
  (r = TxCommitted <-> false = false /\ 1 < 2)
  /\ (r = TxCommitted ->
      store w = withTournaments
                  (insert "t1" (setJoinedCount (Some (JS.ofZ (1 + 1)))
                                  (sampleTournament 100 2 1))) s
      /\ getJoinedCount "t1" (store w) = Some (JS.ofZ (1 + 1)) /\ 1 + 1 <= 2)
  /\ (r <> TxCommitted ->
      store w = s /\ getJoinedCount "t1" (store w) = Some (JS.ofZ 1)).
Proof.
  apply (reserve_slot_respects_capacity "t1" false (sampleStore 150 100 2 1)
           (sampleTournament 100 2 1) 1 2);
    [reflexivity | reflexivity | reflexivity | lia | lia].
Defined.

Section Join.

Context (fault1 fault2 : bool) (now : number) (uid tId : string) (t : Tournament).

Implicit Types (s : Store) (u : User) (c : Tournament).

Lemma joinTournament_run s :
  exec (joinTournament fault1 fault2 now uid tId t) s
  = joinRun fault1 fault2 now uid tId t s.
Proof.
  unfold joinRun, afterReservation, released. run.
  destruct (users s !! uid) as [u |]; [| reflexivity].
  destruct (isBlocked u); [reflexivity |].
  destruct (JS.ltb _ _); [reflexivity |].
  destruct fault1; [reflexivity |].
  destruct (reserveSlotUpdate _) as [| v]; [reflexivity |].
  destruct fault2; [reflexivity |].
  destruct (debitUpdate _ _); reflexivity.
Qed.

(** C1 (what the code does).  In every run of [joinTournament] the
    membership record of (tournament, user) is written exactly when the slot
    transaction and the wallet transaction both commit; on every other exit
    the membership records are those of the start.  When the record is
    written, the balance read at the start covered the entry fee of the card
    and the wallet holds that balance less the fee.  The committed slot
    transaction is an increment of [joinedCount] by one when the tournament
    is stored: the stored node had a free slot and carries the counter plus
    one afterwards.  When no tournament is stored under [tId] the slot
    transaction commits [null]: the record is written although no counter has
    been incremented, and there is still no tournament.  Conversely the
    record is written whenever the store answers both transactions, the user
    is not blocked, the balance covers the fee and the tournament is missing
    or has a free slot.  (The script does not look at the outcome of [set],
    which is taken to succeed.) *)
Theorem join_record_without_increment s :
  let w := exec (joinTournament fault1 fault2 now uid tId t) s in
  (EvSetJoin tId uid ∈ trace w
   ↔ EvTxTournament tId TxCommitted ∈ trace w ∧ EvTxBalance uid TxCommitted ∈ trace w)
  ∧ (EvSetJoin tId uid ∉ trace w →
     tournamentJoins (store w) = tournamentJoins s
     ∧ toasts w ≠ ["Joined successfully!"])
  ∧ (EvSetJoin tId uid ∈ trace w →
     ∃ u, users s !! uid = Some u
          ∧ toasts w = ["Joined successfully!"]
          ∧ tournamentJoins (store w)
            = <[(tId, uid) := joinRecord uid u now]> (tournamentJoins s)
          ∧ JS.geb (JS.orElse (walletBalance u) JS.zero) (JS.toNumber (entryFee t)) = true
          ∧ getBalance uid (store w)
            = Some (JS.sub (JS.orElse (walletBalance u) JS.zero) (JS.toNumber (entryFee t)))
          ∧ match tournaments s !! tId with
            | Some c =>
                JS.geb (JS.toNumber (joinedCount c)) (JS.toNumber (maxSlots c)) = false
                ∧ tournaments (store w)
                  = <[tId := setJoinedCount
                               (Some (JS.add (JS.orElse (joinedCount c) JS.zero) JS.one)) c]>
                      (tournaments s)
                ∧ (∀ jc : Z, joinedCount c = Some (JS.ofZ jc) → 0 <= jc → jc + 1 < 2 ^ 53 →
                   getJoinedCount tId (store w) = Some (JS.ofZ (jc + 1)))
            | None =>
                tournaments (store w) = tournaments s
                ∧ getJoinedCount tId (store w) = None
            end)
  ∧ (fault1 = false → fault2 = false →
     ∀ u, users s !! uid = Some u → isBlocked u = false →
          JS.ltb (JS.orElse (walletBalance u) JS.zero) (JS.toNumber (entryFee t)) = false →
          JS.geb (JS.orElse (walletBalance u) JS.zero) (JS.toNumber (entryFee t)) = true →
          match tournaments s !! tId with
          | Some c => JS.geb (JS.toNumber (joinedCount c)) (JS.toNumber (maxSlots c)) = false
          | None => True
          end →
          EvSetJoin tId uid ∈ trace w).
Proof.
  cbv zeta. rewrite joinTournament_run. unfold joinRun, afterReservation, released.
  assert (Hslot : match tournaments s !! tId with
                  | Some c =>
                      JS.geb (JS.toNumber (joinedCount c)) (JS.toNumber (maxSlots c)) = false
                  | None => True
                  end → reserveSlotUpdate (getTournament tId s) ≠ TxAbort).
  { unfold getTournament, reserveSlotUpdate.
    destruct (tournaments s !! tId) as [c |]; [intros -> |]; discriminate. }
  destruct (users s !! uid) as [u |] eqn:Hu; [| split_and!; in_trace].
  destruct (isBlocked u) eqn:Hblk;
    [split_and!; try in_trace; intros _ _ u' [= <-]; congruence |].
  destruct (JS.ltb _ _) eqn:Hlt;
    [split_and!; try in_trace; intros _ _ u' [= <-]; congruence |].
  destruct fault1; [split_and!; in_trace |].
  destruct (reserveSlotUpdate _) as [| v] eqn:Hres;
    [split_and!; try in_trace; intros _ _ u' _ _ _ _ Hfree; destruct (Hslot Hfree eq_refl) |].
  clear Hslot.
  assert (Hj : ∀ v0, tournamentJoins (putJoinedCount tId v0 (putTournament tId v s))
                     = tournamentJoins s).
  { intros v0. unfold putJoinedCount. destruct v; cbn;
      destruct (_ !! tId); try destruct v0; reflexivity. }
  assert (Hb : ∀ b, tournamentJoins (putBalance uid b (putTournament tId v s))
                    = tournamentJoins s).
  { intros b. unfold putBalance. destruct v; cbn; destruct (_ !! uid); reflexivity. }
  assert (Hus : users (putTournament tId v s) !! uid = Some u)
    by (destruct v; exact Hu).
  assert (Hgb : getBalance uid (putTournament tId v s) = walletBalance u)
    by (unfold getBalance; rewrite Hus; reflexivity).
  destruct fault2.
  { cbn [store trace releaseSlotUpdate]. rewrite Hj. split_and!; in_trace. }
  unfold debitUpdate. rewrite Hgb.
  destruct (JS.geb (JS.orElse (walletBalance u) JS.zero) _) eqn:Hgeb; cycle 1.
  { cbn [store trace releaseSlotUpdate]. rewrite Hj.
    split_and!; in_trace. }
  cbn [store trace withJoins tournamentJoins]. rewrite Hb.
  split_and!; [in_trace | in_trace | | intros; in_trace].
  intros _. exists u.
  assert (Ht : ∀ b, tournaments (putBalance uid b (putTournament tId v s))
                    = tournaments (putTournament tId v s)).
  { intros b. unfold putBalance. rewrite Hus. reflexivity. }
  split_and!; try reflexivity; [exact Hgeb | |].
  - unfold getBalance, putBalance. rewrite Hus. cbn [users withUsers withJoins].
    rewrite lookup_insert_eq. reflexivity.
  - unfold getJoinedCount. cbn [tournaments withJoins]. rewrite Ht.
    unfold getTournament in Hres.
    destruct (tournaments s !! tId) as [c |] eqn:Hc.
    + unfold reserveSlotUpdate in Hres.
      destruct (JS.geb (JS.toNumber (joinedCount c)) _); [discriminate |].
      injection Hres as <-. cbn [putTournament tournaments withTournaments].
      split_and!; [reflexivity | reflexivity |].
      intros jc Hjc H0 H1. rewrite lookup_insert_eq.
      cbn [mbind option_bind joinedCount setJoinedCount].
      rewrite Hjc, JSFacts.orElse_zero_ofZ by lia. unfold JS.one.
      rewrite JSFacts.js_add_ofZ by lia. reflexivity.
    + injection Hres as <-. cbn [putTournament tournaments withTournaments].
      rewrite delete_id by exact Hc. rewrite Hc. split; reflexivity.
Qed.


(** C7 (what the code does).  When no tournament is stored under [tId] the
    first transaction writes [null] back and commits, so the run goes on: a
    user who is not blocked and can pay is debited and recorded as joined,
    although there is still no tournament. *)
Theorem join_missing_tournament_debits s u (bal fee : Z) :
  fault1 = false -> fault2 = false ->
  tournaments s !! tId = None ->
  users s !! uid = Some u -> isBlocked u = false ->
  walletBalance u = Some (JS.ofZ bal) -> entryFee t = Some (JS.ofZ fee) ->
  0 <= fee <= bal -> bal < 2 ^ 53 ->
  let w := exec (joinTournament fault1 fault2 now uid tId t) s in
  toasts w = ["Joined successfully!"]
  /\ EvTxTournament tId TxCommitted ∈ trace w
  /\ getBalance uid (store w) = Some (JS.ofZ (bal - fee))
  /\ tournamentJoins (store w) !! (tId, uid) = Some (joinRecord uid u now)
  /\ tournaments (store w) !! tId = None.
Proof.
  intros Hf1 Hf2 Ht Hu Hblk Hbal Hfee H0 H1 w. subst w.
  rewrite joinTournament_run. unfold joinRun, afterReservation.
  rewrite Hf1, Hf2, Hu, Hblk, Hbal, Hfee. cbn [JS.toNumber].
  rewrite JSFacts.orElse_zero_ofZ, JSFacts.ltb_ofZ by lia.
  destruct (Z.ltb_spec bal fee); [lia |].
  unfold getTournament. rewrite Ht. cbn [reserveSlotUpdate].
  assert (Hbal' : getBalance uid (putTournament tId None s) = Some (JS.ofZ bal)).
  { unfold getBalance. cbn. rewrite Hu. exact Hbal. }
  unfold debitUpdate. rewrite Hbal'. cbn [JS.toNumber].
  rewrite JSFacts.orElse_zero_ofZ, JSFacts.geb_ofZ by lia.
  destruct (Z.leb_spec fee bal); [| lia].
  rewrite JSFacts.js_sub_ofZ by lia.
  split_and!.
  - reflexivity.
  - in_trace.
  - unfold getBalance, putBalance. cbn. rewrite Hu. cbn.
    rewrite lookup_insert_eq. reflexivity.
  - unfold putBalance. cbn. rewrite Hu. cbn. apply lookup_insert_eq.
  - unfold putBalance. cbn. rewrite Hu. cbn. apply lookup_delete_eq.
Qed.

(** C6 (as the code has it).  [joinTournament] never looks at the membership
    records.  Started on a store in which the user already holds the record
    [j] for the tournament, it makes the same database calls, shows the same
    toast and leaves the same users and tournaments as when started without
    that record: an eligible user is counted and debited once more.  A
    success overwrites [j]; every other exit leaves [j] in place. *)
Theorem join_ignores_membership s (j : JoinRecord) :
  let s' := withJoins (insert (tId, uid) j) s in
  let w := exec (joinTournament fault1 fault2 now uid tId t) s in
  let w' := exec (joinTournament fault1 fault2 now uid tId t) s' in
  trace w' = trace w
  /\ users (store w') = users (store w)
  /\ tournaments (store w') = tournaments (store w)
  /\ (EvSetJoin tId uid ∈ trace w' ->
      exists u, users s !! uid = Some u
                /\ tournamentJoins (store w') !! (tId, uid) = Some (joinRecord uid u now))
  /\ (EvSetJoin tId uid ∉ trace w' ->
      tournamentJoins (store w') !! (tId, uid) = Some j).
Proof.
  cbv zeta. rewrite !joinTournament_run. unfold joinRun, afterReservation, released.
  cbn [users withJoins].
  assert (Hj : tournamentJoins (withJoins (insert (tId, uid) j) s) !! (tId, uid) = Some j)
    by apply lookup_insert_eq.
  pose (unchanged :=
          fun w' w : World =>
            trace w' = trace w /\ users (store w') = users (store w)
            /\ tournaments (store w') = tournaments (store w)
            /\ (EvSetJoin tId uid ∉ trace w')
            /\ tournamentJoins (store w') !! (tId, uid) = Some j).
  assert (Hfin : forall w' w, unchanged w' w ->
            trace w' = trace w
            /\ users (store w') = users (store w)
            /\ tournaments (store w') = tournaments (store w)
            /\ (EvSetJoin tId uid ∈ trace w' ->
                exists u, users s !! uid = Some u
                          /\ tournamentJoins (store w') !! (tId, uid)
                             = Some (joinRecord uid u now))
            /\ (EvSetJoin tId uid ∉ trace w' ->
                tournamentJoins (store w') !! (tId, uid) = Some j)).
  { intros w' w (H1 & H2 & H3 & H4 & H5). split_and!; auto. intros H. destruct (H4 H). }
  destruct (users s !! uid) as [u |] eqn:Hu;
    [| apply Hfin; split_and!; auto; in_trace].
  destruct (isBlocked u); [apply Hfin; split_and!; auto; in_trace |].
  destruct (JS.ltb _ _); [apply Hfin; split_and!; auto; in_trace |].
  destruct fault1; [apply Hfin; split_and!; auto; in_trace |].
  change (getTournament tId (withJoins (insert (tId, uid) j) s)) with (getTournament tId s).
  destruct (reserveSlotUpdate _) as [| v]; [apply Hfin; split_and!; auto; in_trace |].
  assert (Hrel : forall v0 f,
             putJoinedCount tId v0 (putTournament tId v (withJoins f s))
             = withJoins f (putJoinedCount tId v0 (putTournament tId v s))).
  { intros v0 f. unfold putJoinedCount. destruct v; cbn;
      destruct (_ !! tId); try destruct v0; reflexivity. }
  assert (Hbal : getBalance uid (putTournament tId v (withJoins (insert (tId, uid) j) s))
                 = getBalance uid (putTournament tId v s))
    by (destruct v; reflexivity).
  assert (Hrg : getJoinedCount tId (putTournament tId v (withJoins (insert (tId, uid) j) s))
                = getJoinedCount tId (putTournament tId v s))
    by (destruct v; reflexivity).
  unfold releaseSlotUpdate. rewrite Hrg, Hbal.
  destruct fault2.
  { apply Hfin. unfold unchanged. cbn [store trace]. rewrite Hrel.
    cbn [withJoins users tournaments tournamentJoins]. rewrite lookup_insert_eq.
    split_and!; auto; in_trace. }
  destruct (debitUpdate _ _) as [| b].
  { apply Hfin. unfold unchanged. cbn [store trace]. rewrite Hrel.
    cbn [withJoins users tournaments tournamentJoins]. rewrite lookup_insert_eq.
    split_and!; auto; in_trace. }
  cbn [store trace withJoins users tournaments tournamentJoins].
  assert (Hpb : forall f, putBalance uid b (putTournament tId v (withJoins f s))
                          = withJoins f (putBalance uid b (putTournament tId v s))).
  { intros f. unfold putBalance. destruct v; cbn; destruct (_ !! uid); reflexivity. }
  rewrite Hpb. cbn [withJoins users tournaments tournamentJoins].
  split_and!; [reflexivity | reflexivity | reflexivity | | in_trace].
  intros _. exists u. split; [reflexivity | apply lookup_insert_eq].
Qed.

End Join.


Lemma join_missing_tournament_debits_witness :
  let s := storeWithoutTournament 150 in
  let w := exec (joinTournament false false sampleNow "u1" "t1"
                   (sampleTournament 100 2 1)) s in
  toasts w = ["Joined successfully!"]
  /\ EvTxTournament "t1" TxCommitted ∈ trace w
  /\ getBalance "u1" (store w) = Some (JS.ofZ (150 - 100))
  /\ tournamentJoins (store w) !! ("t1", "u1")
     = Some (joinRecord "u1" (sampleUser 150) sampleNow)
  /\ tournaments (store w) !! "t1" = None.
Proof.
  apply (join_missing_tournament_debits false false sampleNow "u1" "t1"
           (sampleTournament 100 2 1) (storeWithoutTournament 150) (sampleUser 150)
           150 100);
    [reflexivity | reflexivity | reflexivity | reflexivity | reflexivity
    | reflexivity | reflexivity | lia | lia].
Defined.

Lemma join_record_without_increment_witness :
  let s := storeWithoutTournament 150 in
  let w := exec (joinTournament false false sampleNow "u1" "t1"
                   (sampleTournament 100 2 1)) s in
  EvTxTournament "t1" TxCommitted ∈ trace w
  /\ EvSetJoin "t1" "u1" ∈ trace w
  /\ tournamentJoins (store w)
     = <[("t1", "u1") := joinRecord "u1" (sampleUser 150) sampleNow]> (tournamentJoins s)
  /\ getJoinedCount "t1" s = None
  /\ getJoinedCount "t1" (store w) = None
  /\ tournaments (store w) = tournaments s.
Proof.
  intros s w.
  destruct (join_record_without_increment false false sampleNow "u1" "t1"
              (sampleTournament 100 2 1) s) as (Hiff & _ & Hrec & Hgo).
  assert (Hset : EvSetJoin "t1" "u1" ∈ trace w)
    by (apply (Hgo eq_refl eq_refl (sampleUser 150)); reflexivity || exact I).
  destruct (Hrec Hset) as (u & Hu & _ & Hjoin & _ & _ & Hnone & Hcount).
  change (users s !! "u1") with (Some (sampleUser 150)) in Hu. injection Hu as <-.
  split; [apply Hiff, Hset |]. split; [exact Hset |]. split; [exact Hjoin |].
  split; [reflexivity |]. split; [exact Hcount | exact Hnone].
Defined.

(** C6 fails as stated: [u1] already holds the membership record of [t1];
    a second call is not rejected, it reserves a second slot and debits the
    fee a second time. *)
Lemma second_join_is_accepted :
  let s := storeAfterFirstJoin in
  let w := exec (joinTournament false false sampleNow "u1" "t1"
                   (sampleTournament 100 5 1)) s in
  is_Some (tournamentJoins s !! ("t1", "u1"))
  /\ getJoinedCount "t1" s = Some (JS.ofZ 1)
  /\ getBalance "u1" s = Some (JS.ofZ 150)
  /\ trace w = [EvReadUser "u1"; EvTxTournament "t1" TxCommitted;
                EvTxBalance "u1" TxCommitted; EvSetJoin "t1" "u1";
                EvToast "Joined successfully!"]
  /\ getJoinedCount "t1" (store w) = Some (JS.ofZ 2)
  /\ getBalance "u1" (store w) = Some (JS.ofZ 50).
Proof. split; [eexists; reflexivity |]. vm_compute. repeat split. Qed.

(* ===================================================================== *)
(** ** The withdrawal flow and the wallet debit *)
(* ===================================================================== *)

Lemma requestWithdrawal_run (fault : bool) (now : number) (uid : string)
    (amount : number) (methodField accountField : string) (s : Store) :
  exec (requestWithdrawal fault now uid amount methodField accountField) s
  = withdrawRun fault now uid amount methodField accountField s.
Proof.
  unfold withdrawRun. run.
  destruct (negb _ || _); [reflexivity |].
  destruct (JS.ltb _ _); [reflexivity |].
  destruct fault; [reflexivity |].
  destruct (debitUpdate _ _); [reflexivity |].
  cbn [w_amount w_fee withdrawalRecord].
  destruct (JS.isFinite amount && JS.isFinite _); reflexivity.
Qed.

Section Ledger.

Import JS JSFacts.

Lemma finite_nonneg_orElse (bal : number) :
  finite bal = true -> nonneg bal = true ->
  finite (orElse (Some bal) zero) = true
  /\ nonneg (orElse (Some bal) zero) = true
  /\ forall amt, geb (orElse (Some bal) zero) amt = geb bal amt.
Proof.
  intros Hf Hn. destruct bal as [sb | sb | | sb mb eb]; try discriminate.
  - split_and!; [reflexivity | reflexivity |].
    intros [| [] | |[]]; reflexivity.
  - cbn [orElse truthy]. auto.
Qed.

(** The update callback of the wallet transactions, on a stored balance. *)
Lemma debitUpdate_spec (bal amt : number) :
  finite bal = true -> nonneg bal = true ->
  valid amt = true -> nonneg amt = true ->
  if geb bal amt
  then debitUpdate (Some amt) (Some bal) = TxWrite (Some (sub (orElse (Some bal) zero) amt))
       /\ nonneg (sub (orElse (Some bal) zero) amt) = true
  else debitUpdate (Some amt) (Some bal) = TxAbort.
Proof.
  intros Hfb Hnb Hva Hna.
  destruct (finite_nonneg_orElse bal Hfb Hnb) as (Hf & Hn & Hg).
  unfold debitUpdate. cbn [toNumber]. rewrite Hg.
  destruct (geb bal amt) eqn:E; [| reflexivity].
  split; [reflexivity |].
  assert (Hfa : finite amt = true).
  { destruct amt as [sa | [] | | sa ma ea]; try discriminate; [reflexivity | | exact Hva].
    destruct bal as [sb | sb | | [] mb eb]; discriminate. }
  apply sub_nonneg; try assumption. rewrite <- Hg in E. exact E.
Qed.

Lemma getBalance_putTournament uid tId v s :
  getBalance uid (putTournament tId v s) = getBalance uid s.
Proof. destruct v; reflexivity. Qed.

Lemma getBalance_released uid tId s :
  getBalance uid (released tId s) = getBalance uid s.
Proof.
  unfold released, releaseSlotUpdate, putJoinedCount.
  destruct (tournaments s !! tId); reflexivity.
Qed.

Lemma getBalance_putBalance uid v s u :
  users s !! uid = Some u -> getBalance uid (putBalance uid v s) = v.
Proof.
  intros Hu. unfold getBalance, putBalance. rewrite Hu. cbn.
  rewrite lookup_insert_eq. reflexivity.
Qed.

Lemma users_putTournament tId v s : users (putTournament tId v s) = users s.
Proof. destruct v; reflexivity. Qed.

(** C3.  On a stored balance that is finite and not negative, and for an
    amount that is not negative, the wallet transaction commits
    exactly when the store answers and [balance >= amount]; it then writes
    [balance - amount], which is not negative (and is the exact difference
    on integers below [2 ^ 53]); in every other case it leaves the store as it
    was.  Hence the balance is not negative after the transaction, and not
    after a run of [joinTournament] or of [requestWithdrawal] either. *)
Theorem debit_never_overdraws (uid : string) (s : Store) (u : User)
    (bal amt : number) :
  users s !! uid = Some u -> walletBalance u = Some bal ->
  finite bal = true -> nonneg bal = true ->
  valid amt = true -> nonneg amt = true ->
  let b := orElse (Some bal) zero in
  (forall fault,
     let r := result (txBalance uid fault (debitUpdate (Some amt))) s in
     let w := exec (txBalance uid fault (debitUpdate (Some amt))) s in
     (r = TxCommitted <-> fault = false /\ geb bal amt = true)
     /\ (r = TxCommitted ->
         getBalance uid (store w) = Some (sub b amt) /\ nonneg (sub b amt) = true)
     /\ (r <> TxCommitted -> store w = s))
  /\ (forall x y, bal = ofZ x -> amt = ofZ y -> 0 <= y <= x -> x < 2 ^ 53 ->
      sub b amt = ofZ (x - y))
  /\ (forall fault1 fault2 now tId t, entryFee t = Some amt ->
      exists b', getBalance uid (store (exec (joinTournament fault1 fault2 now uid tId t) s))
                 = Some b' /\ nonneg b' = true)
  /\ (forall fault now methodField accountField,
      exists b', getBalance uid
                   (store (exec (requestWithdrawal fault now uid amt methodField
                                   accountField) s))
                 = Some b' /\ nonneg b' = true).
Proof.
  intros Hu Hbal Hfb Hnb Hfa Hna b.
  assert (Hget : getBalance uid s = Some bal).
  { unfold getBalance. rewrite Hu. exact Hbal. }
  pose proof (debitUpdate_spec bal amt Hfb Hnb Hfa Hna) as Hspec.
  split_and!.
  - intros fault. cbv zeta. run. destruct fault.
    { cbn. split_and!; [intuition discriminate | discriminate | reflexivity]. }
    rewrite Hget. destruct (geb bal amt).
    + destruct Hspec as [-> Hn]. cbn.
      split_and!; [intuition | | congruence].
      intros _. split; [| exact Hn]. apply (getBalance_putBalance uid _ s u Hu).
    + rewrite Hspec. cbn.
      split_and!; [intuition discriminate | discriminate | reflexivity].
  - intros x y -> -> Hy Hx. subst b.
    rewrite orElse_zero_ofZ by lia. apply js_sub_ofZ; lia.
  - intros fault1 fault2 now tId t Hfee.
    rewrite joinTournament_run. unfold joinRun, afterReservation.
    rewrite Hu.
    destruct (isBlocked u); [eauto |].
    destruct (ltb _ _); [eauto |].
    destruct fault1; [eauto |].
    destruct (reserveSlotUpdate _) as [| v]; [eauto |].
    destruct fault2.
    { cbn [store]. rewrite getBalance_released, getBalance_putTournament. eauto. }
    rewrite getBalance_putTournament, Hget, Hfee.
    destruct (geb bal amt).
    + destruct Hspec as [-> Hn]. cbn [store].
      exists (sub b amt). split; [| exact Hn].
      apply (getBalance_putBalance uid _ _ u). rewrite users_putTournament. exact Hu.
    + rewrite Hspec. cbn [store].
      rewrite getBalance_released, getBalance_putTournament. eauto.
  - intros fault now methodField accountField.
    rewrite requestWithdrawal_run. unfold withdrawRun.
    destruct (negb _ || _); [eauto |].
    destruct (ltb _ _); [eauto |].
    destruct fault; [eauto |].
    rewrite Hget. destruct (geb bal amt).
    + destruct Hspec as [-> Hn].
      exists (sub b amt). split; [| exact Hn].
      destruct (isFinite amt && isFinite _); cbn [store];
        apply (getBalance_putBalance uid _ s u Hu).
    + rewrite Hspec. eauto.
Qed.

End Ledger.

Lemma debit_never_overdraws_witness :
  let s := sampleStore 150 100 2 1 in
  let bal := JS.ofZ 150 in
  let amt := JS.ofZ 100 in
  let b := JS.orElse (Some bal) JS.zero in
  (forall fault,
     let r := result (txBalance "u1" fault (debitUpdate (Some amt))) s in
     let w := exec (txBalance "u1" fault (debitUpdate (Some amt))) s in
     (r = TxCommitted <-> fault = false /\ JS.geb bal amt = true)
     /\ (r = TxCommitted ->
         getBalance "u1" (store w) = Some (JS.sub b amt)
         /\ JS.nonneg (JS.sub b amt) = true)
     /\ (r <> TxCommitted -> store w = s))
  /\ (forall x y, bal = JS.ofZ x -> amt = JS.ofZ y -> 0 <= y <= x -> x < 2 ^ 53 ->
      JS.sub b amt = JS.ofZ (x - y))
  /\ (forall fault1 fault2 now tId t, entryFee t = Some amt ->
      exists b', getBalance "u1"
                   (store (exec (joinTournament fault1 fault2 now "u1" tId t) s))
                 = Some b' /\ JS.nonneg b' = true)
  /\ (forall fault now methodField accountField,
      exists b', getBalance "u1"
                   (store (exec (requestWithdrawal fault now "u1" amt methodField
                                   accountField) s))
                 = Some b' /\ JS.nonneg b' = true).
Proof.
  apply (debit_never_overdraws "u1" (sampleStore 150 100 2 1) (sampleUser 150)
           (JS.ofZ 150) (JS.ofZ 100));
    reflexivity.
Defined.

(* ===================================================================== *)
(** ** Wallet history *)
(* ===================================================================== *)

(** C5 (as the code has it).  Neither flow writes below [walletHistory]: the
    history of every user is after a run what it was before, whether or not
    a debit was committed. *)
Theorem debits_append_no_history (fault1 fault2 fault : bool) (now : number)
    (uid tId : string) (t : Tournament) (amount : number)
    (methodField accountField : string) (s : Store) :
  walletHistory (store (exec (joinTournament fault1 fault2 now uid tId t) s))
  = walletHistory s
  /\ walletHistory
       (store (exec (requestWithdrawal fault now uid amount methodField accountField) s))
     = walletHistory s.
Proof.
  split.
  - rewrite joinTournament_run. unfold joinRun, afterReservation, released.
    destruct (users s !! uid) as [u |]; [| reflexivity].
    destruct (isBlocked u); [reflexivity |].
    destruct (JS.ltb _ _); [reflexivity |].
    destruct fault1; [reflexivity |].
    destruct (reserveSlotUpdate _) as [| v]; [reflexivity |].
    assert (Hrel : forall v0, walletHistory (putJoinedCount tId v0 (putTournament tId v s))
                              = walletHistory s).
    { intros v0. unfold putJoinedCount. destruct v; cbn;
        destruct (_ !! tId); try destruct v0; reflexivity. }
    destruct fault2; [apply Hrel |].
    destruct (debitUpdate _ _) as [| b]; [apply Hrel |].
    cbn. unfold putBalance. destruct v; cbn; destruct (_ !! uid); reflexivity.
  - rewrite requestWithdrawal_run. unfold withdrawRun.
    destruct (negb _ || _); [reflexivity |].
    destruct (JS.ltb _ _); [reflexivity |].
    destruct fault; [reflexivity |].
    destruct (debitUpdate _ _) as [| b]; [reflexivity |].
    destruct (JS.isFinite amount && JS.isFinite _);
      cbn; unfold putBalance; destruct (_ !! uid); reflexivity.
Qed.

(** C5 fails as stated: a join and a withdrawal that both succeed and debit
    the wallet leave the user's history without any entry. *)
Lemma successful_debits_leave_no_history :
  let w := exec (joinTournament false false sampleNow "u1" "t1"
                   (sampleTournament 100 2 1)) (sampleStore 150 100 2 1) in
  let w' := exec (requestWithdrawal false sampleNow "u1" (JS.ofZ 1000) "upi" "asha@upi")
              (sampleStore 1500 100 2 1) in
  toasts w = ["Joined successfully!"]
  /\ getBalance "u1" (store w) = Some (JS.ofZ 50)
  /\ walletHistory (store w) !! "u1" = None
  /\ toasts w' = ["Withdraw requested."]
  /\ getBalance "u1" (store w') = Some (JS.ofZ 500)
  /\ walletHistory (store w') !! "u1" = None.
Proof. vm_compute. repeat split. Qed.

(* ===================================================================== *)
(** ** Withdrawal requests *)
(* ===================================================================== *)

Section Withdrawal.

Import JS JSFacts.

Context (now : number) (uid : string) (methodField accountField : string).

(** X9.  Without a profile, or without a balance, nothing is debited and nothing
    is recorded: the update callback sees [null], and a positive amount is
    never covered by [0]. *)
Lemma withdrawal_without_balance (fault : bool) (amount : number) (s : Store) :
  getBalance uid s = None ->
  store (exec (requestWithdrawal fault now uid amount methodField accountField) s) = s.
Proof.
  intros Hget. rewrite requestWithdrawal_run. unfold withdrawRun.
  destruct (negb (truthy amount) || leb amount zero) eqn:Hguard; [reflexivity |].
  destruct (ltb amount _); [reflexivity |].
  destruct fault; [reflexivity |].
  unfold debitUpdate. rewrite Hget. cbn [orElse toNumber].
  apply orb_false_elim in Hguard as [_ Hle]. unfold geb. fold (leb amount zero).
  rewrite Hle. reflexivity.
Qed.

(** C9 (as the code has it).  For a non-negative integer amount [a] and an
    integer percentage [p] with [a * p < 2 ^ 53], [Math.ceil] of the rounded
    quotient is the exact ceiling of [a * p / 100].  A request for such an
    amount, at least the minimum and covered by the balance, appends one
    withdrawal record that carries the amount, that fee and the status
    pending, and debits exactly the amount, not the amount plus the fee. *)
Theorem withdrawal_fee_exact_on_integers (s : Store) (u : User) (st : Settings)
    (a p mn bal : Z) :
  users s !! uid = Some u -> walletBalance u = Some (ofZ bal) ->
  appSettings s = Some st ->
  minWithdraw st = Some (ofZ mn) -> withdrawFeePercent st = Some (ofZ p) ->
  0 <= mn <= a -> 0 < a <= bal -> bal < 2 ^ 53 ->
  0 <= p < 2 ^ 53 -> a * p < 2 ^ 53 ->
  let w := exec (requestWithdrawal false now uid (ofZ a) methodField accountField) s in
  let fee := ofZ (exactCeilPercent a p) in
  withdrawalFee (ofZ a) (ofZ p) = fee
  /\ toasts w = ["Withdraw requested."]
  /\ (exists r, withdrawals (store w) = withdrawals s ++ [r]
                /\ w_uid r = uid /\ w_amount r = ofZ a /\ w_fee r = fee
                /\ w_status r = "pending" /\ w_createdAt r = now)
  /\ getBalance uid (store w) = Some (ofZ (bal - a)).
Proof.
  intros Hu Hbal Hst Hmin Hpct Hmn Ha Hb Hp Hap w fee. subst w fee.
  assert (Hfee : withdrawalFee (ofZ a) (ofZ p) = ofZ (exactCeilPercent a p))
    by (apply withdrawalFee_ofZ; lia).
  split; [exact Hfee |].
  rewrite requestWithdrawal_run. unfold withdrawRun.
  rewrite truthy_ofZ by lia. change zero with (ofZ 0).
  rewrite leb_ofZ by lia. destruct (Z.leb_spec a 0); [lia |]. cbn [negb orb].
  rewrite Hst. cbn [mbind option_bind]. rewrite Hmin, Hpct.
  change (ofZ 0) with zero. rewrite !orElse_zero_ofZ by lia.
  rewrite ltb_ofZ by lia. destruct (Z.ltb_spec a mn); [lia |].
  assert (Hget : getBalance uid s = Some (ofZ bal)).
  { unfold getBalance. rewrite Hu. exact Hbal. }
  unfold debitUpdate. rewrite Hget. cbn [toNumber].
  rewrite orElse_zero_ofZ, geb_ofZ by lia. destruct (Z.leb_spec a bal); [| lia].
  rewrite js_sub_ofZ by lia. rewrite Hfee.
  pose proof (exactCeilPercent_bounds a p ltac:(lia) ltac:(lia)) as Hbd.
  rewrite !isFinite_ofZ by lia. cbn [andb].
  split_and!.
  - reflexivity.
  - cbn [store]. unfold putBalance. rewrite Hu. cbn [withWithdrawals withUsers withdrawals].
    eexists. split; [reflexivity |]. split_and!; reflexivity.
  - cbn [store]. apply (getBalance_putBalance uid _ s u Hu).
Qed.

(** C10.  An amount that is not a positive number (NaN, a zero, a negative
    number) is turned away with the first toast: no settings are read, no
    transaction is started, the store is as before.  Every positive amount
    passes that guard and has the settings read, an integer or not; the
    amount 1000.5 goes all the way to a debit of 1000.5 and a withdrawal
    record for 1000.5. *)
Theorem invalid_amount_rejected_first (fault : bool) (amount : number) (s : Store) :
  let w := exec (requestWithdrawal fault now uid amount methodField accountField) s in
  (ltb zero amount = false ->
   w = {| store := s; trace := [EvToast "Enter valid amount."] |})
  /\ (ltb zero amount = true ->
      EvReadSettings ∈ trace w /\ EvToast "Enter valid amount." ∉ trace w)
  /\ (amount = NaN \/ truthy amount = false \/ ltb amount zero = true ->
      ltb zero amount = false)
  /\ (let x := fractionalAmount in
      let w' := exec (requestWithdrawal false sampleNow "u1" x "" "asha@upi")
                  (sampleStore 1500 100 2 1) in
      ltb (ofZ 1000) x = true /\ ltb x (ofZ 1001) = true
      /\ ltb zero x = true
      /\ trace w' = [EvReadSettings; EvTxBalance "u1" TxCommitted;
                     EvPushWithdrawal; EvToast "Withdraw requested."]
      /\ w_amount <$> withdrawals (store w') = [x]
      /\ getBalance "u1" (store w') = Some (sub (ofZ 1500) x)).
Proof.
  cbv zeta.
  assert (Hguard : negb (truthy amount) || leb amount zero = negb (ltb zero amount)).
  { destruct amount as [[] | [] | | [] m e]; reflexivity. }
  split; [| split; [| split]].
  - intros Hr. rewrite requestWithdrawal_run. unfold withdrawRun.
    rewrite Hguard, Hr. reflexivity.
  - intros Hr. rewrite requestWithdrawal_run. unfold withdrawRun.
    rewrite Hguard, Hr. cbn [negb].
    destruct (ltb amount _); [in_trace |].
    destruct fault; [in_trace |].
    destruct (debitUpdate _ _); [in_trace |].
    destruct (isFinite amount && isFinite _); in_trace.
  - intros [-> | [Hr | Hr]]; [reflexivity | |];
      destruct amount as [[] | [] | | [] m e]; (reflexivity || discriminate).
  - vm_compute. repeat split.
Qed.

End Withdrawal.

Lemma withdrawal_fee_exact_on_integers_witness :
  let s := sampleStore 1500 100 2 1 in
  let w := exec (requestWithdrawal false sampleNow "u1" (JS.ofZ 1000) "upi" "asha@upi") s in
  JS.exactCeilPercent 1000 2 = 20
  /\ (let fee := JS.ofZ (JS.exactCeilPercent 1000 2) in
      withdrawalFee (JS.ofZ 1000) (JS.ofZ 2) = fee
      /\ toasts w = ["Withdraw requested."]
      /\ (exists r, withdrawals (store w) = withdrawals s ++ [r]
                    /\ w_uid r = "u1" /\ w_amount r = JS.ofZ 1000 /\ w_fee r = fee
                    /\ w_status r = "pending" /\ w_createdAt r = sampleNow)
      /\ getBalance "u1" (store w) = Some (JS.ofZ (1500 - 1000))).
Proof.
  split; [reflexivity |].
  apply (withdrawal_fee_exact_on_integers sampleNow "u1" "upi" "asha@upi"
           (sampleStore 1500 100 2 1) (sampleUser 1500) sampleSettings 1000 2 500 1500);
    [reflexivity | reflexivity | reflexivity | reflexivity | reflexivity
    | lia | lia | lia | lia | lia].
Defined.

(** C9 fails as stated: the fee is the ceiling of a quotient that has been
    rounded to 53 bits.  For the integer amount 288230376151711808 at 2 per
    cent the request goes through with a fee one unit below the exact
    ceiling; for the amount 33.333333333333336 at 3 per cent the product is
    rounded down to 100 and the fee is 1, while the exact quotient is above
    1. *)
Lemma fee_loses_a_unit :
  let w := exec (requestWithdrawal false sampleNow "u1" hugeAmount "upi" "asha@upi")
             (sampleStore (2 ^ 59) 100 2 1) in
  hugeAmount = S754_finite false 4503599627370497 6
  /\ toasts w = ["Withdraw requested."]
  /\ w_fee <$> withdrawals (store w) = [JS.ofZ 5764607523034236]
  /\ JS.exactFee hugeAmount 2 = 5764607523034237
  /\ JS.exactCeilPercent (2 ^ 58 + 64) 2 = 5764607523034237
  /\ thirdOfHundred = S754_finite false 4691249611844267 (-47)
  /\ withdrawalFee thirdOfHundred (JS.ofZ 3) = JS.ofZ 1
  /\ JS.exactFee thirdOfHundred 3 = 2.
Proof. vm_compute. repeat split. Qed.

(* ===================================================================== *)
(** ** Further properties of the join flow *)
(* ===================================================================== *)

Section JoinMore.

Import JS JSFacts.

Context (fault1 fault2 : bool) (now : number) (uid tId : string) (t : Tournament).

(** X1.  A user without profile, a blocked user and a user whose balance is
    below the fee of the card are turned away after the profile read alone:
    no transaction is started and the store is as before. *)
Theorem join_preflight_rejections (s : Store) :
  (users s !! uid = None
   \/ exists u, users s !! uid = Some u
                /\ (isBlocked u = true
                    \/ ltb (orElse (walletBalance u) zero) (toNumber (entryFee t)) = true)) ->
  let w := exec (joinTournament fault1 fault2 now uid tId t) s in
  store w = s
  /\ exists msg, trace w = [EvReadUser uid; EvToast msg]
                 /\ msg ∈ ["Profile not set up."; "You are blocked.";
                           "Insufficient wallet balance."].
Proof.
  intros H. cbv zeta. rewrite joinTournament_run. unfold joinRun.
  destruct H as [-> | (u & -> & H)].
  - split; [reflexivity |]. eexists. split; [reflexivity |]. rewrite !elem_of_cons. auto.
  - destruct (isBlocked u).
    + split; [reflexivity |]. eexists. split; [reflexivity |]. rewrite !elem_of_cons. auto.
    + destruct H as [H | ->]; [discriminate |].
      split; [reflexivity |]. eexists. split; [reflexivity |]. rewrite !elem_of_cons. auto.
Qed.

(** X2.  Whatever its outcome, a run touches nothing but the tournament
    [tId], the wallet balance of [uid] and the membership record of the
    pair: every other user, tournament and membership record, the withdrawal
    requests and the settings are as before, and so are the name, phone,
    block flag and game handle of [uid]. *)
Theorem join_frame (s : Store) :
  let w := exec (joinTournament fault1 fault2 now uid tId t) s in
  (forall uid', uid' <> uid -> users (store w) !! uid' = users s !! uid')
  /\ (forall tId', tId' <> tId -> tournaments (store w) !! tId' = tournaments s !! tId')
  /\ (forall k, k <> (tId, uid) -> tournamentJoins (store w) !! k = tournamentJoins s !! k)
  /\ withdrawals (store w) = withdrawals s
  /\ appSettings (store w) = appSettings s
  /\ (setWalletBalance None <$> users (store w) !! uid)
     = (setWalletBalance None <$> users s !! uid).
Proof.
  cbv zeta. rewrite joinTournament_run. unfold joinRun, afterReservation, released.
  destruct (users s !! uid) as [u |] eqn:Hu;
    [| by (cbn [store]; rewrite ?Hu; split_and!)].
  destruct (isBlocked u); [by (cbn [store]; rewrite ?Hu; split_and!) |].
  destruct (ltb _ _); [by (cbn [store]; rewrite ?Hu; split_and!) |].
  destruct fault1; [by (cbn [store]; rewrite ?Hu; split_and!) |].
  destruct (reserveSlotUpdate _) as [| v];
    [by (cbn [store]; rewrite ?Hu; split_and!) |].
  set (s1 := putTournament tId v s).
  assert (H1 : users s1 = users s /\ tournamentJoins s1 = tournamentJoins s
               /\ withdrawals s1 = withdrawals s /\ appSettings s1 = appSettings s
               /\ forall tId', tId' <> tId -> tournaments s1 !! tId' = tournaments s !! tId').
  { subst s1. destruct v; cbn; split_and!; try reflexivity; intros tId' Hne.
    - apply lookup_insert_ne. congruence.
    - apply lookup_delete_ne. congruence. }
  destruct H1 as (Hus & Hjs & Hws & Has & Hts).
  assert (H2 : forall v0,
             users (putJoinedCount tId v0 s1) = users s
             /\ tournamentJoins (putJoinedCount tId v0 s1) = tournamentJoins s
             /\ withdrawals (putJoinedCount tId v0 s1) = withdrawals s
             /\ appSettings (putJoinedCount tId v0 s1) = appSettings s
             /\ forall tId', tId' <> tId ->
                  tournaments (putJoinedCount tId v0 s1) !! tId' = tournaments s !! tId').
  { intros v0. unfold putJoinedCount.
    destruct (tournaments s1 !! tId); [| destruct v0]; cbn;
      (split_and!; [assumption .. |]); intros tId' Hne;
      rewrite ?lookup_insert_ne by congruence; auto. }
  destruct fault2.
  { cbn [store releaseSlotUpdate].
    destruct (H2 (Some (sub (orElse (getJoinedCount tId s1) one) one)))
      as (A & B & C & D & E).
    rewrite A, B, C, D, Hu. split_and!; auto. }
  destruct (debitUpdate _ _) as [| b].
  { cbn [store releaseSlotUpdate].
    destruct (H2 (Some (sub (orElse (getJoinedCount tId s1) one) one)))
      as (A & B & C & D & E).
    rewrite A, B, C, D, Hu. split_and!; auto. }
  cbn [store]. unfold putBalance. rewrite Hus, Hu.
  cbn [withJoins withUsers users tournaments tournamentJoins withdrawals appSettings].
  rewrite Hus, Hjs, Hws, Has. split_and!; auto.
  - intros uid' Hne. apply lookup_insert_ne. congruence.
  - intros k Hne. apply lookup_insert_ne. congruence.
  - rewrite lookup_insert_eq. reflexivity.
Qed.

(** X3.  A join that goes through: the capacity test reads the stored
    tournament and the price is the entry fee of the card, whatever entry fee
    the stored tournament carries.  With a free slot, a user who is not
    blocked and a balance that covers the card's fee, the counter goes up by
    one, the balance goes down by the card's fee, the membership record is
    written and the success toast is shown. *)
Theorem join_success (s : Store) (c : Tournament) (u : User) (jc mx bal fee : Z) :
  fault1 = false -> fault2 = false ->
  tournaments s !! tId = Some c ->
  joinedCount c = Some (ofZ jc) -> maxSlots c = Some (ofZ mx) ->
  0 <= jc < mx -> mx < 2 ^ 53 ->
  users s !! uid = Some u -> isBlocked u = false ->
  walletBalance u = Some (ofZ bal) -> entryFee t = Some (ofZ fee) ->
  0 <= fee <= bal -> bal < 2 ^ 53 ->
  let w := exec (joinTournament fault1 fault2 now uid tId t) s in
  toasts w = ["Joined successfully!"]
  /\ tournaments (store w) !! tId = Some (setJoinedCount (Some (ofZ (jc + 1))) c)
  /\ users (store w) !! uid = Some (setWalletBalance (Some (ofZ (bal - fee))) u)
  /\ tournamentJoins (store w) !! (tId, uid) = Some (joinRecord uid u now).
Proof.
  intros Hf1 Hf2 Hc Hjc Hmx Hj Hm Hu Hblk Hbal Hfee Hf Hb. cbv zeta.
  rewrite joinTournament_run. unfold joinRun, afterReservation.
  rewrite Hf1, Hf2, Hu, Hblk, Hbal, Hfee. cbn [toNumber].
  rewrite orElse_zero_ofZ, ltb_ofZ by lia.
  destruct (Z.ltb_spec bal fee); [lia |].
  unfold getTournament. rewrite Hc.
  rewrite (reserveSlotUpdate_ofZ c jc mx) by (assumption || lia).
  destruct (Z.leb_spec mx jc); [lia |].
  unfold debitUpdate, getBalance, putTournament. cbn [users withTournaments].
  rewrite Hu. cbn [mbind option_bind]. rewrite Hbal. cbn [toNumber].
  rewrite orElse_zero_ofZ, geb_ofZ by lia.
  destruct (Z.leb_spec fee bal); [| lia].
  rewrite js_sub_ofZ by lia.
  unfold putBalance. cbn [users withTournaments]. rewrite Hu.
  cbn [store withJoins withUsers users tournaments tournamentJoins].
  split_and!; [reflexivity | | |]; apply lookup_insert_eq.
Qed.

(** X4.  The join flow never reads the settings: with any other settings in
    the store a run makes the same calls, shows the same toast and leaves
    the same users, tournaments and membership records. *)
Theorem join_ignores_settings (s : Store) (v : option Settings) :
  let w := exec (joinTournament fault1 fault2 now uid tId t) s in
  let w' := exec (joinTournament fault1 fault2 now uid tId t) (withSettings v s) in
  trace w' = trace w /\ store w' = withSettings v (store w).
Proof.
  cbv zeta. rewrite !joinTournament_run. unfold joinRun, afterReservation, released.
  cbn [users withSettings].
  destruct (users s !! uid) as [u |]; [| auto].
  destruct (isBlocked u); [auto |].
  destruct (ltb _ _); [auto |].
  destruct fault1; [auto |].
  change (getTournament tId (withSettings v s)) with (getTournament tId s).
  destruct (reserveSlotUpdate _) as [| v1]; [auto |].
  assert (Hp : putTournament tId v1 (withSettings v s)
               = withSettings v (putTournament tId v1 s)) by (destruct v1; reflexivity).
  rewrite Hp.
  assert (Hr : forall v0 sx, putJoinedCount tId v0 (withSettings v sx)
                             = withSettings v (putJoinedCount tId v0 sx)).
  { intros v0 sx. unfold putJoinedCount. cbn [tournaments withSettings].
    destruct (tournaments sx !! tId); [| destruct v0]; reflexivity. }
  assert (Hb : forall b sx, putBalance uid b (withSettings v sx)
                            = withSettings v (putBalance uid b sx)).
  { intros b sx. unfold putBalance. cbn [users withSettings].
    destruct (users sx !! uid); reflexivity. }
  change (getJoinedCount tId (withSettings v ?sx)) with (getJoinedCount tId sx).
  change (getBalance uid (withSettings v ?sx)) with (getBalance uid sx).
  unfold releaseSlotUpdate.
  destruct fault2; [cbn [store trace]; rewrite Hr; auto |].
  destruct (debitUpdate _ _) as [| b]; [cbn [store trace]; rewrite Hr; auto |].
  cbn [store trace]. rewrite Hb. auto.
Qed.

(** X5.  When the tournament is not stored and the debit then fails (here
    because the wallet transaction reports an error), the compensating
    release runs below the missing node and creates a tournament that
    carries nothing but [joinedCount = 0]; the balance is as before. *)
Theorem join_failed_debit_on_missing_tournament_leaves_node (s : Store) (u : User) :
  fault1 = false -> fault2 = true ->
  tournaments s !! tId = None ->
  users s !! uid = Some u -> isBlocked u = false ->
  ltb (orElse (walletBalance u) zero) (toNumber (entryFee t)) = false ->
  let w := exec (joinTournament fault1 fault2 now uid tId t) s in
  toasts w = ["Unable to deduct fee."]
  /\ tournaments (store w) !! tId = Some (bareTournament (Some zero))
  /\ users (store w) = users s.
Proof.
  intros Hf1 Hf2 Ht Hu Hblk Hpre. cbv zeta.
  rewrite joinTournament_run. unfold joinRun, afterReservation, released.
  rewrite Hf1, Hf2, Hu, Hblk, Hpre. unfold getTournament. rewrite Ht.
  cbn [reserveSlotUpdate store].
  assert (Hd : tournaments (putTournament tId None s) !! tId = None).
  { cbn. apply lookup_delete_eq. }
  unfold getJoinedCount, releaseSlotUpdate, putJoinedCount. rewrite Hd.
  cbn [mbind option_bind orElse]. split_and!; [reflexivity | | reflexivity].
  cbn. rewrite lookup_insert_eq. reflexivity.
Qed.

End JoinMore.

Lemma join_preflight_rejections_witness :
  let s := sampleStore 50 100 2 1 in
  let w := exec (joinTournament false false sampleNow "u1" "t1"
                   (sampleTournament 100 2 1)) s in
  store w = s
  /\ exists msg, trace w = [EvReadUser "u1"; EvToast msg]
                 /\ msg ∈ ["Profile not set up."; "You are blocked.";
                           "Insufficient wallet balance."].
Proof.
  apply (join_preflight_rejections false false sampleNow "u1" "t1"
           (sampleTournament 100 2 1) (sampleStore 50 100 2 1)).
  right. exists (sampleUser 50). split; [reflexivity |]. right. reflexivity.
Defined.

Lemma join_success_witness :
  let s := sampleStore 150 999 2 1 in
  let w := exec (joinTournament false false sampleNow "u1" "t1"
                   (sampleTournament 100 7 0)) s in
  toasts w = ["Joined successfully!"]
  /\ tournaments (store w) !! "t1"
     = Some (setJoinedCount (Some (JS.ofZ (1 + 1))) (sampleTournament 999 2 1))
  /\ users (store w) !! "u1"
     = Some (setWalletBalance (Some (JS.ofZ (150 - 100))) (sampleUser 150))
  /\ tournamentJoins (store w) !! ("t1", "u1")
     = Some (joinRecord "u1" (sampleUser 150) sampleNow).
Proof.
  apply (join_success false false sampleNow "u1" "t1" (sampleTournament 100 7 0)
           (sampleStore 150 999 2 1) (sampleTournament 999 2 1) (sampleUser 150)
           1 2 150 100);
    (reflexivity || lia).
Defined.

Lemma join_failed_debit_on_missing_tournament_leaves_node_witness :
  let s := storeWithoutTournament 150 in
  let w := exec (joinTournament false true sampleNow "u1" "t1"
                   (sampleTournament 100 2 1)) s in
  toasts w = ["Unable to deduct fee."]
  /\ tournaments (store w) !! "t1" = Some (bareTournament (Some JS.zero))
  /\ users (store w) = users s.
Proof.
  apply (join_failed_debit_on_missing_tournament_leaves_node false true sampleNow
           "u1" "t1" (sampleTournament 100 2 1) (storeWithoutTournament 150)
           (sampleUser 150));
    reflexivity.
Defined.

(* ===================================================================== *)
(** ** Further properties of the withdrawal flow *)
(* ===================================================================== *)

Section WithdrawalMore.

Import JS JSFacts.

Context (fault : bool) (now : number) (uid : string) (amount : number)
  (methodField accountField : string).

Lemma positive_not_below_zero (x : number) : ltb zero x = true -> ltb x zero = false.
Proof. destruct x as [[] | [] | | [] m e]; (reflexivity || discriminate). Qed.

Lemma fee_of_zero_percent (x : number) :
  finite x = true -> ltb zero x = true -> withdrawalFee x zero = zero.
Proof. destruct x as [[] | [] | | [] m e]; (reflexivity || discriminate). Qed.

(** Settles the five parts of the statement below for a run that ends
    before any debit. *)
Ltac no_debit :=
  cbn [store];
  split_and!;
  [ split; [cbv [toasts]; cbn; discriminate | intros E; exfalso; lia]
  | reflexivity | reflexivity | in_trace | intros; congruence ].

(** X6.  A request ends with the toast "Withdraw requested." exactly when a
    withdrawal record has been appended, and a run whose wallet transaction
    does not commit leaves the store as it was.  A committed debit is not
    always followed by a record: a positive amount that is not below the
    minimum and is covered by the balance is debited, and then, when the
    amount and the fee are finite numbers, the run ends with the toast; when
    one of them is not, [set] throws, so the balance stays debited while no
    record is created and no toast is shown. *)
Theorem withdrawal_debit_without_record (s : Store) :
  let w := exec (requestWithdrawal fault now uid amount methodField accountField) s in
  let min := orElse (st ← appSettings s; minWithdraw st) zero in
  let fee :=
    withdrawalFee amount (orElse (st ← appSettings s; withdrawFeePercent st) zero) in
  (toasts w = ["Withdraw requested."]
   <-> length (withdrawals (store w)) = S (length (withdrawals s)))
  /\ (toasts w <> ["Withdraw requested."] -> withdrawals (store w) = withdrawals s)
  /\ (EvTxBalance uid TxCommitted ∉ trace w -> store w = s)
  /\ (EvThrow ∈ trace w
      <-> EvTxBalance uid TxCommitted ∈ trace w /\ isFinite amount && isFinite fee = false)
  /\ (forall b, fault = false -> ltb zero amount = true -> ltb amount min = false ->
      debitUpdate (Some amount) (getBalance uid s) = TxWrite b ->
      EvTxBalance uid TxCommitted ∈ trace w
      /\ if isFinite amount && isFinite fee
         then toasts w = ["Withdraw requested."]
         else toasts w = [] /\ store w = putBalance uid b s).
Proof.
  cbv zeta. rewrite requestWithdrawal_run. unfold withdrawRun.
  assert (Hguard : negb (truthy amount) || leb amount zero = negb (ltb zero amount)).
  { destruct amount as [[] | [] | | [] m e]; reflexivity. }
  rewrite Hguard.
  destruct (ltb zero amount); [cbn [negb] | cbn [negb]; no_debit].
  destruct (ltb amount _); [no_debit |].
  destruct fault; [no_debit |].
  destruct (debitUpdate _ _) as [| b]; [no_debit |].
  assert (Hw : withdrawals (putBalance uid b s) = withdrawals s).
  { unfold putBalance. destruct (users s !! uid); reflexivity. }
  destruct (isFinite amount && isFinite _).
  - cbn [store withWithdrawals withdrawals]. rewrite Hw, length_app. cbn [length].
    split_and!.
    + split; [intros _; lia | reflexivity].
    + intros H. destruct H. reflexivity.
    + in_trace.
    + in_trace.
    + intros b' _ _ _ _. split; [in_trace | reflexivity].
  - cbn [store]. rewrite Hw. split_and!.
    + split; [discriminate | intros E; lia].
    + reflexivity.
    + in_trace.
    + in_trace.
    + intros b' _ _ _ [= <-]. split; [in_trace |]. split; reflexivity.
Qed.

(** X7.  The withdrawal requests are only ever appended to, one per run at
    most, and a new one belongs to [uid], carries the amount asked for and is
    pending.  Apart from that a run can change the wallet balance of [uid]
    and nothing else: other users, the rest of the profile, tournaments,
    membership records and settings stay as they were. *)
Theorem withdrawal_frame (s : Store) :
  let w := exec (requestWithdrawal fault now uid amount methodField accountField) s in
  (withdrawals (store w) = withdrawals s
   \/ exists r, withdrawals (store w) = withdrawals s ++ [r]
                /\ w_uid r = uid /\ w_amount r = amount /\ w_status r = "pending"
                /\ w_method r = (if bool_decide (methodField = "") then "upi"
                                 else methodField)
                /\ w_accountInfo r = accountField)
  /\ (forall uid', uid' <> uid -> users (store w) !! uid' = users s !! uid')
  /\ (setWalletBalance None <$> users (store w) !! uid)
     = (setWalletBalance None <$> users s !! uid)
  /\ tournaments (store w) = tournaments s
  /\ tournamentJoins (store w) = tournamentJoins s
  /\ appSettings (store w) = appSettings s.
Proof.
  cbv zeta. rewrite requestWithdrawal_run. unfold withdrawRun.
  destruct (negb _ || _); [by (cbn [store]; split_and!; auto) |].
  destruct (ltb _ _); [by (cbn [store]; split_and!; auto) |].
  destruct fault; [by (cbn [store]; split_and!; auto) |].
  destruct (debitUpdate _ _) as [| b]; [by (cbn [store]; split_and!; auto) |].
  destruct (isFinite amount && isFinite _); cycle 1.
  { cbn [store]. unfold putBalance.
    destruct (users s !! uid) as [u |] eqn:Hu;
      cbn [withUsers users tournaments tournamentJoins withdrawals appSettings];
      rewrite ?Hu; [| by split_and!; auto].
    split_and!; try reflexivity; [by left | |].
    - intros uid' Hne. apply lookup_insert_ne. congruence.
    - rewrite lookup_insert_eq. reflexivity. }
  cbn [store]. unfold putBalance.
  destruct (users s !! uid) as [u |] eqn:Hu;
    cbn [withWithdrawals withUsers users tournaments tournamentJoins withdrawals
         appSettings]; rewrite ?Hu.
  - split_and!; try reflexivity.
    + right. eexists. split; [reflexivity |].
      cbn. split_and!; try reflexivity. destruct (decide (methodField = ""));
        [rewrite bool_decide_eq_true_2 | rewrite bool_decide_eq_false_2]; auto.
    + intros uid' Hne. apply lookup_insert_ne. congruence.
    + rewrite lookup_insert_eq. reflexivity.
  - split_and!; try reflexivity.
    right. eexists. split; [reflexivity |].
    cbn. split_and!; try reflexivity. destruct (decide (methodField = ""));
      [rewrite bool_decide_eq_true_2 | rewrite bool_decide_eq_false_2]; auto.
Qed.

(** X8.  Without stored settings the minimum is 0 and the fee percentage is
    0: every positive finite amount that the balance covers is accepted, and
    the record carries the fee 0. *)
Theorem withdrawal_without_settings (s : Store) (bal : number) :
  fault = false -> appSettings s = None ->
  getBalance uid s = Some bal ->
  finite amount = true -> ltb zero amount = true ->
  geb (orElse (Some bal) zero) amount = true ->
  let w := exec (requestWithdrawal fault now uid amount methodField accountField) s in
  toasts w = ["Withdraw requested."]
  /\ (exists r, withdrawals (store w) = withdrawals s ++ [r] /\ w_fee r = zero)
  /\ getBalance uid (store w) = Some (sub (orElse (Some bal) zero) amount).
Proof.
  intros Hf Hset Hget Hfin Hpos Hcov. cbv zeta.
  rewrite requestWithdrawal_run. unfold withdrawRun.
  assert (Hguard : negb (truthy amount) || leb amount zero = false).
  { destruct amount as [[] | [] | | [] m e]; (reflexivity || discriminate). }
  rewrite Hguard, Hset, Hf. cbn [mbind option_bind orElse].
  rewrite positive_not_below_zero by assumption.
  unfold debitUpdate. rewrite Hget. cbn [toNumber]. rewrite Hcov.
  rewrite fee_of_zero_percent by assumption.
  rewrite (finite_isFinite amount Hfin). change (isFinite zero) with true. cbn [andb].
  cbn [store]. split_and!.
  - reflexivity.
  - unfold getBalance in Hget. destruct (users s !! uid) as [u |] eqn:Hu; [| discriminate].
    unfold putBalance. rewrite Hu. eexists. split; reflexivity.
  - unfold getBalance in Hget. destruct (users s !! uid) as [u |] eqn:Hu; [| discriminate].
    unfold getBalance, putBalance. rewrite Hu. cbn. rewrite lookup_insert_eq. reflexivity.
Qed.

End WithdrawalMore.

Lemma withdrawal_debit_without_record_witness :
  let s := withSettings (Some overflowingSettings) (sampleStore 1500 100 2 1) in
  let w := exec (requestWithdrawal false sampleNow "u1" (JS.ofZ 1000) "" "asha@upi") s in
  withdrawalFee (JS.ofZ 1000) (JS.ofZ (10 ^ 308)) = S754_infinity false
  /\ EvTxBalance "u1" TxCommitted ∈ trace w
  /\ toasts w = []
  /\ store w = putBalance "u1" (Some (JS.ofZ 500)) s
  /\ withdrawals (store w) = withdrawals s.
Proof.
  intros s w.
  assert (Hfee : withdrawalFee (JS.ofZ 1000) (JS.ofZ (10 ^ 308)) = S754_infinity false)
    by (vm_compute; reflexivity).
  destruct (withdrawal_debit_without_record false sampleNow "u1" (JS.ofZ 1000) ""
              "asha@upi" s) as (_ & Hrec & _ & _ & Hgo).
  destruct (Hgo (Some (JS.ofZ 500))) as (Hin & Hthrow);
    [reflexivity | reflexivity | reflexivity | vm_compute; reflexivity |].
  change (withdrawalFee (JS.ofZ 1000)
            (JS.orElse (appSettings s ≫= λ st : Settings, withdrawFeePercent st) JS.zero))
    with (withdrawalFee (JS.ofZ 1000) (JS.ofZ (10 ^ 308))) in Hthrow.
  rewrite Hfee in Hthrow.
  change (JS.isFinite (JS.ofZ 1000) && JS.isFinite (S754_infinity false)) with false
    in Hthrow.
  destruct Hthrow as (Hno & Hst).
  split; [exact Hfee |]. split; [exact Hin |]. split; [exact Hno |].
  split; [exact Hst |].
  apply Hrec. intros E. pose proof (eq_trans (eq_sym Hno) E) as Hd. discriminate Hd.
Defined.

Lemma withdrawal_without_settings_witness :
  let w := exec (requestWithdrawal false sampleNow "u1" fractionalAmount "" "asha@upi")
             (withSettings None (sampleStore 1500 100 2 1)) in
  toasts w = ["Withdraw requested."]
  /\ (exists r, withdrawals (store w) = [] ++ [r] /\ w_fee r = JS.zero)
  /\ getBalance "u1" (store w)
     = Some (JS.sub (JS.orElse (Some (JS.ofZ 1500)) JS.zero) fractionalAmount).
Proof.
  apply (withdrawal_without_settings false sampleNow "u1" fractionalAmount "" "asha@upi"
           (withSettings None (sampleStore 1500 100 2 1)) (JS.ofZ 1500));
    reflexivity.
Defined.

Lemma withdrawal_without_balance_witness :
  store (exec (requestWithdrawal false sampleNow "u2" (JS.ofZ 1000) "" "x")
           (sampleStore 1500 100 2 1))
  = sampleStore 1500 100 2 1.
Proof.
  apply (withdrawal_without_balance sampleNow "u2" "" "x" false (JS.ofZ 1000)
           (sampleStore 1500 100 2 1)).
  reflexivity.
Defined.

(* ===================================================================== *)
(** ** Profiles, blocking and settings *)
(* ===================================================================== *)

(** Unfolds a run of one of the handlers below. *)
Ltac run_handler :=
  cbv [exec result saveUserProfile toggleBlock saveAppSettings showToast emit
       getStore putStore mbind mret M_bind M_ret fst snd store trace app].

Section Profiles.

Import JS JSFacts.

Context (uid : string).

(** X10.  [saveUserProfile] writes nothing when the name or the phone is
    empty or when the store rejects the write.  Otherwise the node of the
    user is replaced as a whole, also when a profile exists already: the user
    is then not blocked and the wallet balance is 0, whatever was stored
    before; nothing else in the store changes. *)
Theorem saveUserProfile_overwrites (fault : bool) (name phone ign : string) (s : Store) :
  let w := exec (saveUserProfile fault uid name phone ign) s in
  (name = "" \/ phone = "" -> store w = s /\ toasts w = ["Please fill all fields."])
  /\ (name <> "" -> phone <> "" -> fault = true ->
      store w = s /\ toasts w = ["Error saving profile."])
  /\ (name <> "" -> phone <> "" -> fault = false ->
      toasts w = ["Profile saved!"]
      /\ store w = withUsers (insert uid (freshProfile name phone ign)) s
      /\ (exists u, users (store w) !! uid = Some u
                    /\ isBlocked u = false /\ walletBalance u = Some zero)
      /\ (forall uid', uid' <> uid -> users (store w) !! uid' = users s !! uid')).
Proof.
  cbv zeta. run_handler.
  destruct (decide (name = "")) as [-> | Hn].
  { cbn. split_and!; [auto | congruence | congruence]. }
  rewrite (bool_decide_eq_false_2 _ Hn). cbn [orb].
  destruct (decide (phone = "")) as [-> | Hp].
  { cbn. split_and!; [auto | congruence | congruence]. }
  rewrite (bool_decide_eq_false_2 _ Hp).
  destruct fault; cbn.
  - split_and!; [intros [? | ?]; congruence | auto | discriminate].
  - split_and!; [intros [? | ?]; congruence | discriminate |].
    intros _ _ _. split_and!; try reflexivity.
    + eexists. rewrite lookup_insert_eq. split_and!; reflexivity.
    + intros uid' Hne. apply lookup_insert_ne. congruence.
Qed.

(** X11.  Right after a profile has been saved the user can neither join a
    tournament whose card asks for a positive fee nor withdraw anything,
    whatever funds the overwritten profile held: the join is refused with
    "Insufficient wallet balance." before any transaction, the withdrawal
    never ends with "Withdraw requested.", and both leave the store as the
    save left it. *)
Theorem fresh_profile_cannot_pay (name phone ign : string) (s : Store)
    (f1 f2 fw : bool) (now : number) (tId : string) (t : Tournament)
    (amount : number) (methodField accountField : string) :
  name <> "" -> phone <> "" -> ltb zero (toNumber (entryFee t)) = true ->
  let s1 := store (exec (saveUserProfile false uid name phone ign) s) in
  let wj := exec (joinTournament f1 f2 now uid tId t) s1 in
  let ww := exec (requestWithdrawal fw now uid amount methodField accountField) s1 in
  trace wj = [EvReadUser uid; EvToast "Insufficient wallet balance."]
  /\ store wj = s1
  /\ toasts ww <> ["Withdraw requested."]
  /\ store ww = s1.
Proof.
  intros Hn Hp Hfee. cbv zeta.
  assert (Hs1 : store (exec (saveUserProfile false uid name phone ign) s)
                = withUsers (insert uid (freshProfile name phone ign)) s).
  { run_handler. rewrite (bool_decide_eq_false_2 _ Hn), (bool_decide_eq_false_2 _ Hp).
    reflexivity. }
  rewrite Hs1. set (s1 := withUsers _ s).
  assert (Hu : users s1 !! uid = Some (freshProfile name phone ign))
    by apply lookup_insert_eq.
  split_and!.
  - rewrite joinTournament_run. unfold joinRun. rewrite Hu.
    change (isBlocked (freshProfile name phone ign)) with false.
    change (orElse (walletBalance (freshProfile name phone ign)) zero) with zero.
    rewrite Hfee. reflexivity.
  - rewrite joinTournament_run. unfold joinRun. rewrite Hu.
    change (isBlocked (freshProfile name phone ign)) with false.
    change (orElse (walletBalance (freshProfile name phone ign)) zero) with zero.
    rewrite Hfee. reflexivity.
  - rewrite requestWithdrawal_run. unfold withdrawRun.
    destruct (negb (truthy amount) || leb amount zero) eqn:Hguard; [discriminate |].
    destruct (ltb amount _); [discriminate |].
    destruct fw; [discriminate |].
    unfold debitUpdate, getBalance. rewrite Hu. cbn [mbind option_bind walletBalance freshProfile].
    apply orb_false_elim in Hguard as [_ Hle].
    change (geb (orElse (Some zero) zero) (toNumber (Some amount))) with (leb amount zero).
    rewrite Hle. discriminate.
  - rewrite requestWithdrawal_run. unfold withdrawRun.
    destruct (negb (truthy amount) || leb amount zero) eqn:Hguard; [reflexivity |].
    destruct (ltb amount _); [reflexivity |].
    destruct fw; [reflexivity |].
    unfold debitUpdate, getBalance. rewrite Hu. cbn [mbind option_bind walletBalance freshProfile].
    apply orb_false_elim in Hguard as [_ Hle].
    change (geb (orElse (Some zero) zero) (toNumber (Some amount))) with (leb amount zero).
    rewrite Hle. reflexivity.
Qed.

Lemma setBlocked_twice (u : User) : setBlocked (isBlocked u) (setBlocked (negb (isBlocked u)) u) = u.
Proof. destruct u; reflexivity. Qed.

(** X12.  The block button flips [isBlocked] of the user and changes nothing
    else: the wallet balance, the rest of the profile and all other users are
    as before, and a second click (on the card rendered from the new value)
    gives back the store of the start.  [User] is the node as
    [saveUserProfile] writes it, which always carries the flag. *)
Theorem toggleBlock_involution (s : Store) (u : User) :
  users s !! uid = Some u ->
  let s1 := store (exec (toggleBlock uid u) s) in
  let u1 := setBlocked (negb (isBlocked u)) u in
  users s1 !! uid = Some u1
  /\ getBalance uid s1 = getBalance uid s
  /\ (forall uid', uid' <> uid -> users s1 !! uid' = users s !! uid')
  /\ toasts (exec (toggleBlock uid u) s)
     = [if isBlocked u then "User unblocked." else "User blocked."]
  /\ store (exec (toggleBlock uid u1) s1) = s.
Proof.
  intros Hu. cbv zeta. run_handler. rewrite Hu. cbn [fst snd store trace].
  cbn [users withUsers]. rewrite lookup_insert_eq.
  split_and!.
  - reflexivity.
  - unfold getBalance. cbn [users withUsers]. rewrite lookup_insert_eq, Hu. reflexivity.
  - intros uid' Hne. apply lookup_insert_ne. congruence.
  - cbv [toasts]. cbn. destruct (isBlocked u); reflexivity.
  - cbn [isBlocked setBlocked]. rewrite negb_involutive.
    unfold withUsers. cbn. rewrite insert_insert_eq.
    replace (setBlocked (isBlocked u) (setBlocked (negb (isBlocked u)) u)) with u
      by (symmetry; apply setBlocked_twice).
    rewrite insert_id by assumption. apply store_eta.
Qed.

(** X13.  Once the administrator has blocked a user, a join attempt of that
    user is refused with "You are blocked." after the profile read alone:
    no slot is reserved, nothing is debited, the store stays as the block
    left it. *)
Theorem blocked_user_cannot_join (s : Store) (u : User)
    (f1 f2 : bool) (now : number) (tId : string) (t : Tournament) :
  users s !! uid = Some u -> isBlocked u = false ->
  let s1 := store (exec (toggleBlock uid u) s) in
  let w := exec (joinTournament f1 f2 now uid tId t) s1 in
  trace w = [EvReadUser uid; EvToast "You are blocked."]
  /\ store w = s1
  /\ tournaments s1 = tournaments s
  /\ getBalance uid s1 = getBalance uid s.
Proof.
  intros Hu Hb. cbv zeta.
  assert (Hs1 : store (exec (toggleBlock uid u) s)
                = withUsers (insert uid (setBlocked true u)) s).
  { run_handler. rewrite Hu, Hb. reflexivity. }
  rewrite Hs1. rewrite !joinTournament_run. unfold joinRun.
  cbn [users withUsers]. rewrite lookup_insert_eq. cbn [isBlocked setBlocked].
  split_and!; try reflexivity.
  unfold getBalance. cbn [users withUsers]. rewrite lookup_insert_eq, Hu. reflexivity.
Qed.

End Profiles.

Section SettingsForm.

Import JS JSFacts.

(** X14.  The settings form stores what [parseInt] gives for a field, with 0
    in place of NaN and of 0, and without any range check: a negative
    percentage or one above 100 is stored as it is.  NaN and the infinities
    are never stored: when one of the three numeric fields parses to an
    infinity, [set] throws, and then nothing is stored and no toast is shown.
    A save that takes place replaces the settings and leaves the rest of the
    store as it was. *)
Theorem saveAppSettings_stores_finite (fault : bool)
    (minParsed pctParsed cooldownParsed : number) (s : Store) :
  let w := exec (saveAppSettings fault minParsed pctParsed cooldownParsed) s in
  let accepted :=
    isFinite (settingsField minParsed) && isFinite (settingsField pctParsed)
    && isFinite (settingsField cooldownParsed) in
  (toasts w = ["Settings updated."] <-> accepted = true /\ fault = false)
  /\ (toasts w = ["Settings updated."] ->
      store w = withSettings
                  (Some {| minWithdraw := Some (settingsField minParsed);
                           withdrawFeePercent := Some (settingsField pctParsed) |}) s
      /\ isFinite (settingsField minParsed) = true
      /\ isFinite (settingsField pctParsed) = true)
  /\ (toasts w <> ["Settings updated."] -> store w = s)
  /\ (EvThrow ∈ trace w <-> accepted = false)
  /\ (forall x, settingsField x = if truthy x then x else zero)
  /\ (forall x, isFinite (settingsField x) = false <-> exists sg, x = S754_infinity sg).
Proof.
  cbv zeta. run_handler.
  assert (Hfield : forall x, settingsField x = if truthy x then x else zero)
    by reflexivity.
  assert (Hinf : forall x, isFinite (settingsField x) = false
                           <-> exists sg, x = S754_infinity sg).
  { intros x. rewrite Hfield. destruct x as [sg | sg | | sg m e]; cbn;
      (split; [try discriminate; eauto | intros (sg' & E); try discriminate; auto]). }
  destruct (isFinite (settingsField minParsed)) eqn:Hmin;
    [| cbn; split_and!; auto; try discriminate; in_trace].
  destruct (isFinite (settingsField pctParsed)) eqn:Hpct;
    [| cbn; split_and!; auto; try discriminate; in_trace].
  destruct (isFinite (settingsField cooldownParsed)) eqn:Hcd;
    [| cbn; split_and!; auto; try discriminate; in_trace].
  cbn [andb]. destruct fault; cbn.
  - split_and!; auto; try discriminate; in_trace.
  - split_and!; auto; in_trace.
Qed.

(** X15.  The minimum the administrator saves is the minimum the withdrawal
    flow enforces: after a save of the integer minimum [m] (the two other
    numeric fields being such that the save takes place), a request for a
    positive integer amount below [m] is refused after the settings read,
    with no transaction and no change to the store; when the field of the
    minimum does not parse, no positive amount is refused for being too
    small. *)
Theorem saved_minimum_is_enforced (m a : Z) (pctParsed cooldownParsed : number)
    (s : Store) (fault : bool) (now : number) (uid methodField accountField : string) :
  0 < a < m -> m < 2 ^ 53 ->
  isFinite (settingsField pctParsed) = true ->
  isFinite (settingsField cooldownParsed) = true ->
  let s1 := store (exec (saveAppSettings false (ofZ m) pctParsed cooldownParsed) s) in
  let s0 := store (exec (saveAppSettings false NaN pctParsed cooldownParsed) s) in
  let w := exec (requestWithdrawal fault now uid (ofZ a) methodField accountField) s1 in
  let w0 := exec (requestWithdrawal fault now uid (ofZ a) methodField accountField) s0 in
  trace w = [EvReadSettings; EvToast "Minimum withdraw is"]
  /\ store w = s1
  /\ EvToast "Minimum withdraw is" ∉ trace w0.
Proof.
  intros Ha Hm Hpct Hcd. cbv zeta.
  assert (Hs : forall mp, isFinite (settingsField mp) = true ->
             store (exec (saveAppSettings false mp pctParsed cooldownParsed) s)
             = withSettings
                 (Some {| minWithdraw := Some (settingsField mp);
                          withdrawFeePercent := Some (settingsField pctParsed) |}) s).
  { intros mp Hmp. run_handler. rewrite Hmp, Hpct, Hcd. reflexivity. }
  rewrite (Hs (ofZ m)), (Hs NaN);
    [| reflexivity | unfold settingsField; rewrite orElse_ofZ by lia; apply isFinite_ofZ; lia].
  rewrite !requestWithdrawal_run. unfold withdrawRun, settingsField.
  rewrite truthy_ofZ by lia. change zero with (ofZ 0). rewrite leb_ofZ by lia.
  destruct (Z.leb_spec a 0); [lia |]. cbn [negb orb appSettings withSettings].
  cbn [mbind option_bind minWithdraw].
  rewrite !(orElse_ofZ m) by lia. rewrite ltb_ofZ by lia.
  destruct (Z.ltb_spec a m); [| lia].
  split_and!; [reflexivity | reflexivity |].
  change (orElse (Some (orElse (Some NaN) (ofZ 0))) (ofZ 0)) with (ofZ 0).
  rewrite ltb_ofZ by lia. destruct (Z.ltb_spec a 0); [lia |].
  destruct fault; [in_trace |].
  destruct (debitUpdate _ _); [in_trace |].
  destruct (isFinite (ofZ a) && isFinite _); in_trace.
Qed.

End SettingsForm.

Lemma fresh_profile_cannot_pay_witness :
  let s1 := store (exec (saveUserProfile false "u1" "Asha" "5550100" "asha42")
                     (sampleStore 1500 100 2 1)) in
  let wj := exec (joinTournament false false sampleNow "u1" "t1"
                    (sampleTournament 100 2 1)) s1 in
  let ww := exec (requestWithdrawal false sampleNow "u1" (JS.ofZ 1000) "" "asha@upi") s1 in
  trace wj = [EvReadUser "u1"; EvToast "Insufficient wallet balance."]
  /\ store wj = s1
  /\ toasts ww <> ["Withdraw requested."]
  /\ store ww = s1.
Proof.
  apply (fresh_profile_cannot_pay "u1" "Asha" "5550100" "asha42"
           (sampleStore 1500 100 2 1) false false false sampleNow "t1"
           (sampleTournament 100 2 1) (JS.ofZ 1000) "" "asha@upi");
    [discriminate | discriminate | reflexivity].
Defined.

Lemma toggleBlock_involution_witness :
  let s := sampleStore 150 100 2 1 in
  let u := sampleUser 150 in
  let s1 := store (exec (toggleBlock "u1" u) s) in
  let u1 := setBlocked (negb (isBlocked u)) u in
  users s1 !! "u1" = Some u1
  /\ getBalance "u1" s1 = getBalance "u1" s
  /\ (forall uid', uid' <> "u1" -> users s1 !! uid' = users s !! uid')
  /\ toasts (exec (toggleBlock "u1" u) s)
     = [if isBlocked u then "User unblocked." else "User blocked."]
  /\ store (exec (toggleBlock "u1" u1) s1) = s.
Proof.
  apply (toggleBlock_involution "u1" (sampleStore 150 100 2 1) (sampleUser 150)).
  reflexivity.
Defined.

Lemma blocked_user_cannot_join_witness :
  let s := sampleStore 150 100 2 1 in
  let s1 := store (exec (toggleBlock "u1" (sampleUser 150)) s) in
  let w := exec (joinTournament false false sampleNow "u1" "t1"
                   (sampleTournament 100 2 1)) s1 in
  trace w = [EvReadUser "u1"; EvToast "You are blocked."]
  /\ store w = s1
  /\ tournaments s1 = tournaments s
  /\ getBalance "u1" s1 = getBalance "u1" s.
Proof.
  apply (blocked_user_cannot_join "u1" (sampleStore 150 100 2 1) (sampleUser 150)
           false false sampleNow "t1" (sampleTournament 100 2 1));
    reflexivity.
Defined.

Lemma saved_minimum_is_enforced_witness :
  let s := sampleStore 1500 100 2 1 in
  let s1 := store (exec (saveAppSettings false (JS.ofZ 500) (JS.ofZ 2) (JS.ofZ 30)) s) in
  let s0 := store (exec (saveAppSettings false JS.NaN (JS.ofZ 2) (JS.ofZ 30)) s) in
  let w := exec (requestWithdrawal false sampleNow "u1" (JS.ofZ 400) "" "asha@upi") s1 in
  let w0 := exec (requestWithdrawal false sampleNow "u1" (JS.ofZ 400) "" "asha@upi") s0 in
  trace w = [EvReadSettings; EvToast "Minimum withdraw is"]
  /\ store w = s1
  /\ EvToast "Minimum withdraw is" ∉ trace w0.
Proof.
  apply (saved_minimum_is_enforced 500 400 (JS.ofZ 2) (JS.ofZ 30) (sampleStore 1500 100 2 1)
           false sampleNow "u1" "" "asha@upi"); [lia | lia | reflexivity | reflexivity].
Defined.

Lemma saveAppSettings_stores_finite_witness :
  let s := sampleStore 1500 100 2 1 in
  let w := exec (saveAppSettings false (JS.ofZ 500) (S754_infinity false) (JS.ofZ 30)) s in
  toasts w = [] /\ store w = s.
Proof.
  split; [reflexivity |].
  apply (saveAppSettings_stores_finite false (JS.ofZ 500) (S754_infinity false) (JS.ofZ 30)
           (sampleStore 1500 100 2 1)).
  vm_compute. discriminate.
Defined.

(* ===================================================================== *)
(** ** Slider, wallet history and tournament list *)
(* ===================================================================== *)

Section Views.

Local Open Scope nat_scope.

(** The slider state in which slide [a] of [n] alone is displayed. *)
Lemma lookup_only (n a i : nat) :
  ((fun j => bool_decide (j = a)) <$> seq 0 n) !! i
  = if decide (i < n) then Some (bool_decide (i = a)) else None.
Proof.
  rewrite list_lookup_fmap. destruct (decide (i < n)) as [Hi | Hi].
  - rewrite lookup_seq_lt by assumption. reflexivity.
  - rewrite lookup_ge_None_2; [reflexivity |]. rewrite length_seq. lia.
Qed.

Lemma tick_only (n a : nat) :
  a < n ->
  tick {| active := a; shown := (fun j => bool_decide (j = a)) <$> seq 0 n |}
  = {| active := (a + 1) mod n;
       shown := (fun j => bool_decide (j = (a + 1) mod n)) <$> seq 0 n |}.
Proof.
  intros Ha. unfold tick. cbn [active shown].
  rewrite length_fmap, length_seq. f_equal.
  assert (Hnext : (a + 1) mod n < n) by (apply Nat.mod_upper_bound; lia).
  apply list_eq. intros i.
  rewrite !list_lookup_insert, length_insert, length_fmap, length_seq, !lookup_only.
  repeat case_decide; try lia; try reflexivity; f_equal; symmetry.
  all: first [apply bool_decide_eq_true_2; lia | apply bool_decide_eq_false_2; lia].
Qed.

(** X16.  Without slides [startAutoPlay] schedules nothing.  With [n] slides
    the slide displayed after [k] runs of the interval callback is slide
    [k mod n] and no other: one slide is visible at any time, the slides come
    in order, and after [n] runs the slider is back where it was. *)
Theorem autoplay_cycles (n k : nat) :
  n <> 0 ->
  startAutoPlay 0 = None
  /\ exists st0, startAutoPlay n = Some st0
     /\ let st := Nat.iter k tick st0 in
        active st = k mod n
        /\ length (shown st) = n
        /\ (forall i, shown st !! i = Some true <-> i = k mod n)
        /\ Nat.iter n tick st = st.
Proof.
  intros Hn. split; [reflexivity |].
  destruct n as [| n']; [congruence |]. set (n := S n') in *.
  eexists. split; [reflexivity |].
  assert (Hclosed : forall j,
             Nat.iter j tick {| active := 0;
                                shown := (fun i => bool_decide (i = 0)) <$> seq 0 n |}
             = {| active := j mod n;
                  shown := (fun i => bool_decide (i = j mod n)) <$> seq 0 n |}).
  { induction j as [| j IH].
    - cbn [Nat.iter nat_rect]. rewrite Nat.Div0.mod_0_l. reflexivity.
    - rewrite Nat.iter_succ, IH, tick_only by (apply Nat.mod_upper_bound; lia).
      rewrite Nat.Div0.add_mod_idemp_l. replace (j + 1) with (S j) by lia. reflexivity. }
  cbv zeta. rewrite <- Nat.iter_add, !Hclosed. cbn [active shown].
  assert (Hk : k mod n < n) by (apply Nat.mod_upper_bound; lia).
  split_and!.
  - reflexivity.
  - rewrite length_fmap, length_seq. reflexivity.
  - intros i. rewrite lookup_only. destruct (decide (i < n)) as [Hi | Hi].
    + split.
      * intros [= H]. apply bool_decide_eq_true_1 in H. exact H.
      * intros ->. f_equal. apply bool_decide_eq_true_2. reflexivity.
    + split; [discriminate | lia].
  - f_equal; [| do 2 f_equal].
    + rewrite <- Nat.Div0.add_mod_idemp_l, Nat.Div0.mod_same, Nat.add_0_l. reflexivity.
    + rewrite <- Nat.Div0.add_mod_idemp_l, Nat.Div0.mod_same, Nat.add_0_l. reflexivity.
Qed.

(** X17.  The history list shows at most twenty entries, newest first; a new
    entry goes on top, and once twenty are shown each new entry pushes the
    oldest shown one out. *)
Theorem historyView_push (l : list HistoryEntry) (e : HistoryEntry) :
  historyView (l ++ [e]) = e :: take 19 (historyView l)
  /\ length (historyView l) = Nat.min 20 (length l)
  /\ (length l <= 20 -> historyView l = reverse l).
Proof.
  unfold historyView. split_and!.
  - rewrite length_app. cbn [length].
    rewrite take_reverse, length_drop, drop_drop.
    destruct (decide (length l < 20)) as [Hlt | Hge].
    + replace (length l + 1 - 20) with 0 by lia.
      replace (length l - 20 + (length l - (length l - 20) - 19)) with 0 by lia.
      cbn [drop]. apply reverse_snoc.
    + replace (length l - 20 + (length l - (length l - 20) - 19)) with (length l + 1 - 20)
        by lia.
      rewrite drop_app_le by lia. apply reverse_snoc.
  - rewrite length_reverse, length_drop. lia.
  - intros H. replace (length l - 20) with 0 by lia. reflexivity.
Qed.

End Views.

Section TournamentList.

Context (lower : string -> string).

Lemma refresh_all (f : Filters) (cache : list (string * Tournament)) :
  search f = "" -> category f = None \/ category f = Some "" ->
  refreshTournamentList lower f cache = (cache, false).
Proof.
  intros Hs Hc. induction cache as [| [id data] rest IH]; [reflexivity |].
  cbn [refreshTournamentList]. rewrite IH, Hs.
  destruct Hc as [-> | ->]; reflexivity.
Qed.

(** The cards of a category, in cache order. *)
Lemma refresh_category (f : Filters) (c : string) (cache : list (string * Tournament)) :
  search f = "" -> category f = Some c -> c <> "" ->
  refreshTournamentList lower f cache
  = (filter (fun p => categoryId p.2 = Some c) cache, false).
Proof.
  intros Hs Hc Hne. induction cache as [| [id data] rest IH]; [reflexivity |].
  cbn [refreshTournamentList]. rewrite IH, Hs, Hc, filter_cons. cbn [fst snd].
  rewrite (bool_decide_eq_false_2 _ Hne). cbn [negb andb].
  destruct (decide (categoryId data = Some c)) as [E | E].
  - rewrite (bool_decide_eq_true_2 _ E). reflexivity.
  - rewrite (bool_decide_eq_false_2 _ E). reflexivity.
Qed.

(** X18.  With the empty search of the start the list never fails: without
    a category (after [filterByCategory(null)], or with the empty id) every
    cached tournament gets a card, in cache order; with a category exactly
    the cached tournaments of that category get one, in cache order, so a
    tournament that carries no category is shown only while no category is
    chosen. *)
Theorem tournament_list_by_category (f : Filters) (c : string)
    (cache : list (string * Tournament)) :
  search f = "" -> c <> "" ->
  refreshTournamentList lower (filterByCategory None f) cache = (cache, false)
  /\ refreshTournamentList lower (filterByCategory (Some "") f) cache = (cache, false)
  /\ refreshTournamentList lower (filterByCategory (Some c) f) cache
     = (filter (fun p => categoryId p.2 = Some c) cache, false)
  /\ (forall id data, (id, data) ∈ cache -> categoryId data = None ->
      (id, data) ∉ (refreshTournamentList lower (filterByCategory (Some c) f) cache).1).
Proof.
  intros Hs Hc.
  rewrite !refresh_all by (cbn; auto).
  rewrite (refresh_category _ c) by (cbn; auto).
  split_and!; try reflexivity.
  intros id data Hin Hnone. cbn [fst]. rewrite list_elem_of_filter. cbn.
  rewrite Hnone. intros [? _]. discriminate.
Qed.

(** X19.  The cards shown are always cards of the cache, in cache order, and
    when a search is active and a cached tournament has no title the loop
    stops at that tournament: the cards after it are not rendered, whatever
    they are. *)
Theorem tournament_list_stops_at_missing_title (f : Filters) (id : string)
    (data : Tournament) (before after : list (string * Tournament)) :
  search f <> "" -> title data = None ->
  (match category f with
   | Some c => c = "" \/ categoryId data = Some c
   | None => True
   end) ->
  sublist (refreshTournamentList lower f (before ++ (id, data) :: after)).1
          (before ++ (id, data) :: after)
  /\ (refreshTournamentList lower f (before ++ (id, data) :: after)).1
     = (refreshTournamentList lower f (before ++ [(id, data)])).1
  /\ sublist (refreshTournamentList lower f (before ++ (id, data) :: after)).1 before
  /\ ((refreshTournamentList lower f before).2 = false ->
      (refreshTournamentList lower f (before ++ (id, data) :: after)).2 = true).
Proof.
  intros Hs Ht Hcat.
  assert (Hhere : forall rest, refreshTournamentList lower f ((id, data) :: rest) = ([], true)).
  { intros rest. cbn [refreshTournamentList]. rewrite Ht, (bool_decide_eq_false_2 _ Hs).
    destruct (category f) as [c |]; [| reflexivity].
    destruct Hcat as [-> | E]; [reflexivity |].
    rewrite (bool_decide_eq_true_2 _ E). cbn. rewrite andb_false_r. reflexivity. }
  assert (Hgen : forall rest rest',
             (refreshTournamentList lower f (before ++ (id, data) :: rest)).1
             = (refreshTournamentList lower f (before ++ (id, data) :: rest')).1
             /\ sublist (refreshTournamentList lower f (before ++ (id, data) :: rest)).1 before
             /\ ((refreshTournamentList lower f before).2 = false ->
                 (refreshTournamentList lower f (before ++ (id, data) :: rest)).2 = true)).
  { intros rest rest'. induction before as [| [id0 d0] b IH].
    - cbn [app]. rewrite !Hhere. split_and!; [reflexivity | constructor | reflexivity].
    - destruct IH as (IH1 & IH2 & IH3).
      cbn [app refreshTournamentList].
      destruct (match category f with
                | Some c => negb (bool_decide (c = "")) && negb (bool_decide (categoryId d0 = Some c))
                | None => false
                end).
      + split_and!; [exact IH1 | apply sublist_cons; exact IH2 | exact IH3].
      + destruct (bool_decide (search f = "")).
        * cbn [fst snd]. split_and!;
            [f_equal; exact IH1 | apply sublist_skip; exact IH2 | exact IH3].
        * destruct (title d0) as [ti |].
          -- destruct (includes _ _); cbn [fst snd].
             ++ split_and!; [f_equal; exact IH1 | apply sublist_skip; exact IH2 | exact IH3].
             ++ split_and!; [exact IH1 | apply sublist_cons; exact IH2 | exact IH3].
          -- cbn [fst snd]. split_and!; [reflexivity | apply sublist_nil_l | discriminate]. }
  destruct (Hgen after []) as (G1 & G2 & G3).
  split_and!; [| exact G1 | exact G2 | exact G3].
  etransitivity; [exact G2 |]. apply sublist_inserts_r. reflexivity.
Qed.

End TournamentList.

Lemma autoplay_cycles_witness :
  startAutoPlay 0 = None
  /\ exists st0, startAutoPlay 3 = Some st0
     /\ let st := Nat.iter 4 tick st0 in
        active st = (4 mod 3)%nat
        /\ length (shown st) = 3%nat
        /\ (forall i, shown st !! i = Some true <-> i = (4 mod 3)%nat)
        /\ Nat.iter 3 tick st = st.
Proof. apply (autoplay_cycles 3 4). discriminate. Defined.

Lemma tournament_list_by_category_witness :
  let cache := [("t1", sampleTournament 100 2 1); ("t2", bareTournament None)] in
  let f := {| category := Some "c9"; search := "" |} in
  refreshTournamentList id (filterByCategory None f) cache = (cache, false)
  /\ refreshTournamentList id (filterByCategory (Some "") f) cache = (cache, false)
  /\ refreshTournamentList id (filterByCategory (Some "c1") f) cache
     = (filter (fun p => categoryId p.2 = Some "c1") cache, false)
  /\ (forall i data, (i, data) ∈ cache -> categoryId data = None ->
      (i, data) ∉ (refreshTournamentList id (filterByCategory (Some "c1") f) cache).1).
Proof.
  apply (tournament_list_by_category id {| category := Some "c9"; search := "" |} "c1"
           [("t1", sampleTournament 100 2 1); ("t2", bareTournament None)]);
    [reflexivity | discriminate].
Defined.

Lemma tournament_list_stops_at_missing_title_witness :
  let f := {| category := None; search := "cup" |} in
  let before := [("t1", sampleTournament 100 2 1)] in
  let after := [("t3", sampleTournament 50 4 0)] in
  let all := before ++ ("t2", bareTournament None) :: after in
  sublist (refreshTournamentList id f all).1 all
  /\ (refreshTournamentList id f all).1
     = (refreshTournamentList id f (before ++ [("t2", bareTournament None)])).1
  /\ sublist (refreshTournamentList id f all).1 before
  /\ ((refreshTournamentList id f before).2 = false ->
      (refreshTournamentList id f all).2 = true).
Proof.
  apply (tournament_list_stops_at_missing_title id
           {| category := None; search := "cup" |} "t2" (bareTournament None)
           [("t1", sampleTournament 100 2 1)] [("t3", sampleTournament 50 4 0)]);
    [discriminate | reflexivity | exact I].
Defined.

(* ===================================================================== *)
(** ** A card with a negative entry fee *)
(* ===================================================================== *)

Section NegativeFee.

Import JS JSFacts.

Lemma ofZ_neg (n : Z) : 0 < n < 2 ^ 53 -> ofZ (- n) = canon true n.
Proof.
  intros Hn. destruct n as [| p | p]; try lia.
  unfold ofZ. cbn [Z.opp binary_normalize].
  apply (binary_round_exact true p 0 (Zpos p)); lia.
Qed.

(** Subtracting a negative integer adds its absolute value. *)
Lemma sub_ofZ_neg (a b : Z) :
  0 <= a -> 0 < b -> a + b < 2 ^ 53 ->
  sub (ofZ a) (ofZ (- b)) = ofZ (a + b).
Proof.
  intros Ha Hb Hab. rewrite ofZ_neg by lia.
  destruct (Z.eq_dec a 0) as [-> | Ha0].
  { rewrite Z.add_0_l, (ofZ_pos b) by lia. reflexivity. }
  rewrite (ofZ_pos a) by lia. unfold sub, canon, SFsub.
  pose proof (digitsZ_bounds a ltac:(lia)). pose proof (digitsZ_bounds b ltac:(lia)).
  set (ez := Z.min (digitsZ a - 53) (digitsZ b - 53)).
  rewrite !aligned_canon by lia. cbn [cond_Zopp].
  rewrite Z.sub_opp_r, <- Z.mul_add_distr_r.
  apply binary_normalize_exact; lia.
Qed.

Lemma compare_ofZ_neg (a b : Z) :
  0 <= a < 2 ^ 53 -> 0 < b < 2 ^ 53 -> SFcompare (ofZ a) (ofZ (- b)) = Some Gt.
Proof.
  intros Ha Hb. rewrite ofZ_neg by lia.
  destruct (Z.eq_dec a 0) as [-> | Ha0]; [reflexivity |].
  rewrite (ofZ_pos a) by lia. reflexivity.
Qed.

Context (now : number) (uid tId : string) (t : Tournament).

(** X20.  The flow does not look at the sign of the fee.  When the card
    carries a negative entry fee, the balance check passes for every
    balance and the "debit" of a join that goes through raises the balance by
    the absolute value of the fee. *)
Theorem negative_fee_credits (s : Store) (c : Tournament) (u : User) (jc mx bal f : Z) :
  tournaments s !! tId = Some c ->
  joinedCount c = Some (ofZ jc) -> maxSlots c = Some (ofZ mx) ->
  0 <= jc < mx -> mx < 2 ^ 53 ->
  users s !! uid = Some u -> isBlocked u = false ->
  walletBalance u = Some (ofZ bal) -> entryFee t = Some (ofZ (- f)) ->
  0 <= bal -> 0 < f -> bal + f < 2 ^ 53 ->
  let w := exec (joinTournament false false now uid tId t) s in
  toasts w = ["Joined successfully!"]
  /\ getBalance uid (store w) = Some (ofZ (bal + f))
  /\ getJoinedCount tId (store w) = Some (ofZ (jc + 1)).
Proof.
  intros Hc Hjc Hmx Hj Hm Hu Hblk Hbal Hfee H0 Hf Hb. cbv zeta.
  rewrite joinTournament_run. unfold joinRun, afterReservation.
  rewrite Hu, Hblk, Hbal, Hfee. cbn [toNumber].
  rewrite orElse_zero_ofZ by lia.
  unfold ltb, SFltb. rewrite compare_ofZ_neg by lia.
  unfold getTournament. rewrite Hc.
  rewrite (reserveSlotUpdate_ofZ c jc mx) by (assumption || lia).
  destruct (Z.leb_spec mx jc); [lia |].
  unfold debitUpdate, getBalance, putTournament. cbn [users withTournaments].
  rewrite Hu. cbn [mbind option_bind]. rewrite Hbal. cbn [toNumber].
  rewrite orElse_zero_ofZ by lia.
  assert (Hge : geb (ofZ bal) (ofZ (- f)) = true).
  { unfold geb, SFleb.
    destruct (Z.eq_dec bal 0) as [-> | Hne].
    - rewrite ofZ_neg by lia. reflexivity.
    - rewrite ofZ_neg, (ofZ_pos bal) by lia. reflexivity. }
  rewrite Hge, sub_ofZ_neg by lia.
  unfold putBalance. cbn [users withTournaments]. rewrite Hu.
  cbn [store]. split_and!.
  - reflexivity.
  - cbn. rewrite lookup_insert_eq. reflexivity.
  - unfold getJoinedCount. cbn. rewrite lookup_insert_eq. reflexivity.
Qed.

End NegativeFee.

Lemma negative_fee_credits_witness :
  let s := sampleStore 150 100 2 1 in
  let w := exec (joinTournament false false sampleNow "u1" "t1"
                   (sampleTournament (- 40) 2 1)) s in
  toasts w = ["Joined successfully!"]
  /\ getBalance "u1" (store w) = Some (JS.ofZ (150 + 40))
  /\ getJoinedCount "t1" (store w) = Some (JS.ofZ (1 + 1)).
Proof.
  apply (negative_fee_credits sampleNow "u1" "t1" (sampleTournament (- 40) 2 1)
           (sampleStore 150 100 2 1) (sampleTournament 100 2 1) (sampleUser 150)
           1 2 150 40);
    (reflexivity || lia).
Defined.
